(** * The DCID server SDK test server (backend-server-examples/python/main.py)

    A shallow embedding of the FastAPI test server: the request models, the
    bearer-token helper [set_auth_from_request], the error translator
    [handle_sdk_error] and the route handlers, followed by the properties of
    the request/response contract.

    The server is glue around an external SDK.  A handler is therefore a
    finite program over the SDK's operations ([Prog]): every SDK call is a
    node of the program whose continuation receives either the call's result
    or the exception it raised, and the programs are run against an arbitrary
    SDK ([run]), which records the calls made. *)

From Stdlib Require Import ZArith String List Bool Lia.
From stdpp Require Import base option gmap strings.

Import ListNotations.
Local Open Scope string_scope.
Local Open Scope Z_scope.

(** ** Python values *)

(** Values that travel through the server untouched and end in a JSON body. *)
#[local] Set Warnings "-register-all".
Inductive JSON : Type :=
| JNull
| JBool (b : bool)
| JInt (z : Z)
| JStr (s : string)
| JList (l : list JSON)
| JDict (d : list (string * JSON)).
#[local] Set Warnings "register-all".

(** A dict literal of a handler: its items in the order they are written. *)
Abbreviation Body := (list (string * JSON)).

(** A Python [dict] with string keys, as a call of the SDK returns it. *)
Abbreviation Dict := (gmap string JSON).

(** [None] of an [Optional[str]] is JSON [null]. *)
Definition opt_str (v : option string) : JSON :=
  match v with
  | Some s => JStr s
  | None => JNull
  end.

(** [d[k]] of a dict literal, for reading a response body. *)
Fixpoint item (k : string) (b : Body) : option JSON :=
  match b with
  | [] => None
  | (k', v) :: b' => if String.eqb k k' then Some v else item k b'
  end.

Definition keys (b : Body) : list string := map fst b.

(** [s.startswith(p)] *)
Definition startswith (s p : string) : bool := String.prefix p s.

(** [s[n:]] for [n >= 0]: the string without its first [n] characters
    (empty when [s] is shorter). *)
Fixpoint slice_from (n : nat) (s : string) : string :=
  match n, s with
  | O, _ => s
  | S _, EmptyString => EmptyString
  | S n', String _ s' => slice_from n' s'
  end.

(** Truth value of an [Optional[str]]: [None] and the empty string are false. *)
Definition truthy (v : option string) : bool :=
  match v with
  | None => false
  | Some EmptyString => false
  | Some (String _ _) => true
  end.

(** [v or d] for an [Optional[int]]: [None] and [0] are false, so [d] is
    taken for both. *)
Definition py_or (v : option Z) (d : Z) : Z :=
  match v with
  | None => d
  | Some n => if Z.eqb n 0 then d else n
  end.

(** [fastapi.status] *)
Module status.
Definition HTTP_200_OK : Z := 200.
Definition HTTP_401_UNAUTHORIZED : Z := 401.
Definition HTTP_500_INTERNAL_SERVER_ERROR : Z := 500.
Definition HTTP_502_BAD_GATEWAY : Z := 502.
End status.

(** ** Exceptions *)

(** Modelled from the spec: the exception classes of [dcid_server_sdk], which
    main.py imports and which are not part of the sources.  The taxonomy is
    the spec's: authentication, network and server errors are separate kinds
    of SDK error, any other error the SDK raises is a generic SDK error, and
    everything else is not an SDK error.  [OtherException] stands for every
    class outside the SDK's hierarchy ([KeyError], [ValueError], ...). *)
Inductive ExcClass : Type :=
| AuthenticationError
| NetworkError
| ServerError
| DCIDServerSDKError
| OtherException.

Definition ExcClass_eqb (a b : ExcClass) : bool :=
  match a, b with
  | AuthenticationError, AuthenticationError
  | NetworkError, NetworkError
  | ServerError, ServerError
  | DCIDServerSDKError, DCIDServerSDKError
  | OtherException, OtherException => true
  | _, _ => false
  end.

(** The direct base class inside the SDK's hierarchy ([None]: the base is
    Python's [Exception]). *)
Definition base_class (c : ExcClass) : option ExcClass :=
  match c with
  | AuthenticationError | NetworkError | ServerError => Some DCIDServerSDKError
  | DCIDServerSDKError | OtherException => None
  end.

(** [issubclass(c, d)]: [d] is [c] or the base of [c]. *)
Definition issubclass (c d : ExcClass) : bool :=
  ExcClass_eqb c d ||
  match base_class c with
  | Some b => ExcClass_eqb b d
  | None => false
  end.

(** The request context an SDK error may carry; the debug line of
    [handle_sdk_error] prints these three attributes, here as the text that
    formatting gives. *)
Record ErrorContext : Type := {
  url : string;
  ctx_status_code : string;
  error_source : string
}.

(** An instance of [Exception].
    - [exc_class]: the SDK class it is an instance of, most derived first;
    - [exc_type_name]: [type(error).__name__];
    - [exc_str]: [str(error)];
    - [status_code], [is_api_key_error], [code]: the attributes the SDK's
      classes declare (an absent status is [None]);
    - [context]: [None] when the attribute is missing or false, and the
      SDK's context otherwise.  An exception whose [context] is some other
      object is not of this type: see [AnyException]. *)
Record PyException : Type := {
  exc_class : ExcClass;
  exc_type_name : string;
  exc_str : string;
  status_code : option Z;
  is_api_key_error : bool;
  code : option string;
  context : option ErrorContext
}.

Definition isinstance (e : PyException) (c : ExcClass) : bool :=
  issubclass (exc_class e) c.

(** [KeyError(k)], raised by [d[k]] when the key is missing; its [str] is the
    [repr] of the key. *)
Definition KeyError (k : string) : PyException :=
  {| exc_class := OtherException;
     exc_type_name := "KeyError";
     exc_str := "'" ++ k ++ "'";
     status_code := None;
     is_api_key_error := false;
     code := None;
     context := None |}.

(** The result of evaluating Python code: a value, or a raised exception. *)
Inductive Outcome (A : Type) : Type :=
| Ok (a : A)
| Err (e : PyException).
Arguments Ok {A} a.
Arguments Err {A} e.

(** ** Request models

    The pydantic classes of main.py.  A field declared with an alias carries
    its Python name here; the alias is the key it has in the JSON body (see
    "Request validation" below). *)

Module RegisterOTPRequest.
Record t : Type := { email : option string; phone : option string }.
End RegisterOTPRequest.

Module ConfirmOTPRequest.
Record t : Type := {
  email : option string;
  phone : option string;
  otp : string
}.
End ConfirmOTPRequest.

Module RefreshTokenRequest.
Record t : Type := { refresh_token : string }.
End RefreshTokenRequest.

Module GenerateEncryptionKeyRequest.
Record t : Type := { did : string; owner_email : string }.
End GenerateEncryptionKeyRequest.

Module GetEncryptedKeyRequest.
Record t : Type := { did : string }.
End GetEncryptedKeyRequest.

Module IssueCredentialRequest.
Record t : Type := {
  did : string;
  credential_name : string;
  values : Dict;
  owner_email : string
}.
End IssueCredentialRequest.

Module StoreCredentialRequest.
Record t : Type := {
  did : string;
  credential_type : string;
  credential : JSON;
  encrypted : bool
}.
End StoreCredentialRequest.

Module RetrieveUserCredentialRequest.
Record t : Type := {
  did : string;
  credential_type : string;
  include_cid_only : bool
}.
End RetrieveUserCredentialRequest.

Module GetAllUserCredentialsRequest.
Record t : Type := { did : string; include_credential_data : bool }.
End GetAllUserCredentialsRequest.

Module VerifySignInRequest.
Record t : Type := { credential_name : string }.
End VerifySignInRequest.

Module PostLinkStoreRequest.
Record t : Type := {
  id : string;
  thid : string;
  type : string;
  from_did : string;
  typ : string;
  body : Dict
}.
End PostLinkStoreRequest.

Module VerifyCallbackRequest.
Record t : Type := { token : string }.
End VerifyCallbackRequest.

Module StartSessionRequest.
Record t : Type := {
  user_id : option string;
  anonymous_id : option string;
  page_location : option string;
  session_id : option string
}.
End StartSessionRequest.

Module EndSessionRequest.
Record t : Type := {
  session_id : string;
  user_id : option string;
  anonymous_id : option string;
  ended_at : option string
}.
End EndSessionRequest.

(** ** The SDK's option and result types

    Modelled from the spec: the option classes main.py builds and the result
    objects it reads come from [dcid_server_sdk], which is not part of the
    sources.  An option record has the keyword arguments the handler passes,
    with the types of the request fields that fill them; a result record has
    the attributes the handler reads, as values ready for the JSON body.  The
    token pair holds two strings, as the spec's data model says. *)

Module InitiateOTPOptions.
Record t : Type := { email : option string; phone : option string }.
End InitiateOTPOptions.

Module ConfirmOTPOptions.
Record t : Type := {
  email : option string;
  phone : option string;
  otp : string
}.
End ConfirmOTPOptions.

Module RefreshTokenOptions.
Record t : Type := { refresh_token : string }.
End RefreshTokenOptions.

Module GenerateEncryptionKeyOptions.
Record t : Type := { did : string; owner_email : string }.
End GenerateEncryptionKeyOptions.

Module GetEncryptedKeyOptions.
Record t : Type := { did : string }.
End GetEncryptedKeyOptions.

Module IssueCredentialOptions.
Record t : Type := {
  did : string;
  credential_name : string;
  values : Dict;
  owner_email : string
}.
End IssueCredentialOptions.

Module GetCredentialOfferOptions.
Record t : Type := { claim_id : string; tx_id : string }.
End GetCredentialOfferOptions.

Module StoreCredentialOptions.
Record t : Type := {
  did : string;
  credential_type : string;
  credential : JSON;
  encrypted : bool
}.
End StoreCredentialOptions.

Module RetrieveUserCredentialOptions.
Record t : Type := {
  did : string;
  credential_type : string;
  include_cid_only : bool
}.
End RetrieveUserCredentialOptions.

Module GetAllUserCredentialsOptions.
Record t : Type := { did : string; include_credential_data : bool }.
End GetAllUserCredentialsOptions.

Module VerifySignInOptions.
Record t : Type := { credential_name : string }.
End VerifySignInOptions.

Module PostLinkStoreOptions.
Record t : Type := {
  id : string;
  thid : string;
  type : string;
  from_did : string;
  typ : string;
  body : Dict
}.
End PostLinkStoreOptions.

Module GetLinkStoreOptions.
Record t : Type := { id : string }.
End GetLinkStoreOptions.

Module VerifyCallbackOptions.
Record t : Type := { session_id : string; token : string }.
End VerifyCallbackOptions.

Module StartSessionEvent.
Record t : Type := {
  user_id : option string;
  anonymous_id : option string;
  page_location : option string;
  session_id : option string
}.
End StartSessionEvent.

Module EndSessionEvent.
Record t : Type := {
  session_id : string;
  user_id : option string;
  anonymous_id : option string;
  ended_at : option string
}.
End EndSessionEvent.

Module OTPResult.
Record t : Type := { otp : JSON }.
End OTPResult.

Module Tokens.
Record t : Type := { access_token : string; refresh_token : string }.
End Tokens.

Module EncryptedKeyResult.
Record t : Type := { encrypted_key : JSON; did : JSON; message : JSON }.
End EncryptedKeyResult.

Module GeneratedKeyResult.
Record t : Type := {
  encrypted_key : JSON;
  did : JSON;
  owner_email : JSON;
  message : JSON
}.
End GeneratedKeyResult.

Module CredentialOfferResult.
Record t : Type := {
  status : JSON;
  tx_id : JSON;
  claim_id : JSON;
  offer_available : JSON;
  qr_code_link : JSON;
  offer : JSON;
  message : JSON
}.
End CredentialOfferResult.

Module StoreCredentialResult.
Record t : Type := {
  cid : JSON;
  did : JSON;
  credential_type : JSON;
  message : JSON;
  encrypted : JSON
}.
End StoreCredentialResult.

Module RetrieveCredentialResult.
Record t : Type := {
  cid : JSON;
  did : JSON;
  credential_type : JSON;
  message : JSON;
  credential : JSON;
  encrypted : JSON
}.
End RetrieveCredentialResult.

Module AllCredentialsResult.
Record t : Type := {
  credentials : JSON;
  did : JSON;
  count : JSON;
  message : JSON
}.
End AllCredentialsResult.

Module VerifySignInResult.
Record t : Type := {
  proof_request_url : JSON;
  iden3comm_url : JSON;
  session_id : JSON
}.
End VerifySignInResult.

Module LinkStoreResult.
Record t : Type := {
  id : JSON;
  thid : JSON;
  type : JSON;
  from_did : JSON;
  typ : JSON;
  body : JSON
}.
End LinkStoreResult.

Module PostLinkStoreResult.
Record t : Type := { proof_request_url : JSON; iden3comm_url : JSON }.
End PostLinkStoreResult.

Module VerifyCallbackResult.
Record t : Type := {
  id : JSON;
  typ : JSON;
  type : JSON;
  thid : JSON;
  body : JSON;
  from_did : JSON;
  to : JSON
}.
End VerifyCallbackResult.

Module StartSessionResult.
Record t : Type := {
  success : JSON;
  session_id : JSON;
  timestamp : JSON;
  anonymous_id : JSON;
  linked : JSON
}.
End StartSessionResult.

Module EndSessionResult.
Record t : Type := { success : JSON; timestamp : JSON }.
End EndSessionResult.

(** ** Programs over the SDK *)

(** The methods main.py calls on the shared client [sdk], each with the type
    of the value it returns. *)
Inductive SdkOp : Type -> Type :=
| set_auth_token (token : string) : SdkOp unit
| set_tokens (tokens : Tokens.t) : SdkOp unit
| auth_register_otp (o : InitiateOTPOptions.t) : SdkOp OTPResult.t
| auth_confirm_otp (o : ConfirmOTPOptions.t) : SdkOp Tokens.t
| auth_admin_login (o : InitiateOTPOptions.t) : SdkOp OTPResult.t
| auth_refresh_token (o : RefreshTokenOptions.t) : SdkOp Tokens.t
| encryption_get_key (o : GetEncryptedKeyOptions.t) : SdkOp EncryptedKeyResult.t
| encryption_generate_key (o : GenerateEncryptionKeyOptions.t)
    : SdkOp GeneratedKeyResult.t
| issuer_issue_credential (o : IssueCredentialOptions.t) : SdkOp Dict
| issuer_get_credential_offer (o : GetCredentialOfferOptions.t)
    : SdkOp CredentialOfferResult.t
| ipfs_store_credential (o : StoreCredentialOptions.t)
    : SdkOp StoreCredentialResult.t
| ipfs_retrieve_user_credential (o : RetrieveUserCredentialOptions.t)
    : SdkOp RetrieveCredentialResult.t
| ipfs_get_all_user_credentials (o : GetAllUserCredentialsOptions.t)
    : SdkOp AllCredentialsResult.t
| verification_verify_sign_in (o : VerifySignInOptions.t)
    : SdkOp VerifySignInResult.t
| verification_get_link_store (o : GetLinkStoreOptions.t) : SdkOp LinkStoreResult.t
| verification_post_link_store (o : PostLinkStoreOptions.t)
    : SdkOp PostLinkStoreResult.t
| verification_verify_callback (o : VerifyCallbackOptions.t)
    : SdkOp VerifyCallbackResult.t
| analytics_start_session (o : StartSessionEvent.t) : SdkOp StartSessionResult.t
| analytics_end_session (o : EndSessionEvent.t) : SdkOp EndSessionResult.t.

(** A piece of Python code of the server: it returns, raises, prints a line,
    or calls the SDK and goes on with what the call returned or raised. *)
Inductive Prog (A : Type) : Type :=
| Ret (a : A)
| Raise (e : PyException)
| Print (line : string) (k : Prog A)
| Call {X : Type} (op : SdkOp X) (k : Outcome X -> Prog A).
Arguments Ret {A} a.
Arguments Raise {A} e.
Arguments Print {A} line k.
Arguments Call {A X} op k.

Fixpoint bind {A B : Type} (p : Prog A) (f : A -> Prog B) : Prog B :=
  match p with
  | Ret a => f a
  | Raise e => Raise e
  | Print line k => Print line (bind k f)
  | Call op k => Call op (fun r => bind (k r) f)
  end.

#[global] Instance Prog_ret : MRet Prog := @Ret.
#[global] Instance Prog_bind : MBind Prog := fun A B f p => bind p f.

(** A call whose exception is not handled at the call site. *)
Definition call {X : Type} (op : SdkOp X) : Prog X :=
  Call op (fun r => match r with Ok x => Ret x | Err e => Raise e end).

Definition print (line : string) : Prog unit := Print line (Ret tt).

(** [try: p  except Exception as e: h e] *)
Fixpoint try_except {A : Type} (p : Prog A) (h : PyException -> Prog A) : Prog A :=
  match p with
  | Ret a => Ret a
  | Raise e => h e
  | Print line k => Print line (try_except k h)
  | Call op k => Call op (fun r => try_except (k r) h)
  end.

(** [d[k]] of a dict: raises [KeyError] when the key is missing. *)
Definition getitem (d : Dict) (k : string) : Prog JSON :=
  match d !! k with
  | Some v => Ret v
  | None => Raise (KeyError k)
  end.

(** [k in d] *)
Definition contains (d : Dict) (k : string) : bool :=
  match d !! k with
  | Some _ => true
  | None => false
  end.

(** The shared client, [sdk = DCIDServerSDK(...)] of main.py, with its
    sub-modules. *)
Module sdk.
Definition set_auth_token (token : string) := call (set_auth_token token).
Definition set_tokens (tokens : Tokens.t) := call (set_tokens tokens).
Module auth.
Definition register_otp o := call (auth_register_otp o).
Definition confirm_otp o := call (auth_confirm_otp o).
Definition admin_login o := call (auth_admin_login o).
Definition refresh_token o := call (auth_refresh_token o).
End auth.
Module identity.
Module encryption.
Definition get_key o := call (encryption_get_key o).
Definition generate_key o := call (encryption_generate_key o).
End encryption.
Module issuer.
Definition issue_credential o := call (issuer_issue_credential o).
Definition get_credential_offer o := call (issuer_get_credential_offer o).
End issuer.
Module ipfs.
Definition store_credential o := call (ipfs_store_credential o).
Definition retrieve_user_credential o :=
  call (ipfs_retrieve_user_credential o).
Definition get_all_user_credentials o :=
  call (ipfs_get_all_user_credentials o).
End ipfs.
Module verification.
Definition verify_sign_in o := call (verification_verify_sign_in o).
Definition get_link_store o := call (verification_get_link_store o).
Definition post_link_store o := call (verification_post_link_store o).
Definition verify_callback o := call (verification_verify_callback o).
End verification.
End identity.
Module analytics.
Definition start_session o := call (analytics_start_session o).
Definition end_session o := call (analytics_end_session o).
End analytics.
End sdk.

(** ** The server *)

(** What a route function returns: a plain dict, which FastAPI sends with the
    route's default status, or an explicit [JSONResponse]. *)
Inductive HandlerResult : Type :=
| ReturnDict (content : Body)
| JSONResponse (status_code : Z) (content : Body).

(** The HTTP response FastAPI sends for a handler's return value. *)
Record Response : Type := { http_status : Z; http_body : Body }.

Definition respond (r : HandlerResult) : Response :=
  match r with
  | ReturnDict content =>
      {| http_status := status.HTTP_200_OK; http_body := content |}
  | JSONResponse st content => {| http_status := st; http_body := content |}
  end.

(** [set_auth_from_request]: extract and set the auth token from the request
    header. *)
Definition set_auth_from_request (authorization : option string) : Prog unit :=
  match authorization with
  | Some a =>
      if truthy authorization && startswith a "Bearer " then
        let token := slice_from 7 a in
        sdk.set_auth_token token
      else Ret tt
  | None => Ret tt
  end.

(** [handle_sdk_error]: the debug lines, then the response for the first
    class the error is an instance of.  This is the function on the
    exceptions of type [PyException], whose context has the three attributes
    the second debug line reads; [handle_sdk_error_any] is the same function
    on exceptions of any shape. *)
Definition handle_sdk_error (error : PyException) : Prog HandlerResult :=
  print ("SDK Error: " ++ exc_type_name error ++ ": " ++ exc_str error) ;;
  match context error with
  | Some ctx =>
      print ("  Context: url=" ++ url ctx ++ ", status=" ++ ctx_status_code ctx
             ++ ", source=" ++ error_source ctx)
  | None => Ret tt
  end ;;
  if isinstance error AuthenticationError then
    Ret (JSONResponse
           (py_or (status_code error) status.HTTP_401_UNAUTHORIZED)
           [("error", JStr (exc_str error));
            ("type", JStr "AuthenticationError");
            ("isAPIKeyError", JBool (is_api_key_error error))])
  else if isinstance error NetworkError then
    Ret (JSONResponse
           status.HTTP_502_BAD_GATEWAY
           [("error", JStr (exc_str error));
            ("type", JStr "NetworkError");
            ("code", opt_str (code error))])
  else if isinstance error ServerError then
    Ret (JSONResponse
           (py_or (status_code error) status.HTTP_500_INTERNAL_SERVER_ERROR)
           [("error", JStr (exc_str error)); ("type", JStr "ServerError")])
  else if isinstance error DCIDServerSDKError then
    Ret (JSONResponse
           (py_or (status_code error) status.HTTP_500_INTERNAL_SERVER_ERROR)
           [("error", JStr (exc_str error)); ("type", JStr "SDKError")])
  else
    Ret (JSONResponse
           status.HTTP_500_INTERNAL_SERVER_ERROR
           [("error", JStr (exc_str error)); ("type", JStr "UnknownError")]).

Arguments handle_sdk_error : simpl never.
Arguments getitem : simpl never.
Arguments contains : simpl never.
Arguments set_auth_from_request : simpl never.

(** *** Routes *)

(** [GET /health] *)
Definition health : Prog HandlerResult :=
  Ret (ReturnDict
         [("status", JStr "ok"); ("service", JStr "dcid-server-sdk-test-server")]).

(** [POST /api/auth/sign-in/initiate] *)
Definition sign_in_initiate (request : RegisterOTPRequest.t) : Prog HandlerResult :=
  try_except
    (result ← sdk.auth.register_otp
       {| InitiateOTPOptions.email := RegisterOTPRequest.email request;
          InitiateOTPOptions.phone := RegisterOTPRequest.phone request |};
     Ret (ReturnDict [("otp", OTPResult.otp result)]))
    (fun e => handle_sdk_error e).

(** [POST /api/auth/sign-in/confirm] *)
Definition sign_in_confirm (request : ConfirmOTPRequest.t) : Prog HandlerResult :=
  try_except
    (tokens ← sdk.auth.confirm_otp
       {| ConfirmOTPOptions.email := ConfirmOTPRequest.email request;
          ConfirmOTPOptions.phone := ConfirmOTPRequest.phone request;
          ConfirmOTPOptions.otp := ConfirmOTPRequest.otp request |};
     sdk.set_tokens tokens ;;
     Ret (ReturnDict
            [("access_token", JStr (Tokens.access_token tokens));
             ("refresh_token", JStr (Tokens.refresh_token tokens))]))
    (fun e => handle_sdk_error e).

(** [POST /api/auth/admin-login] *)
Definition admin_login (request : RegisterOTPRequest.t) : Prog HandlerResult :=
  try_except
    (result ← sdk.auth.admin_login
       {| InitiateOTPOptions.email := RegisterOTPRequest.email request;
          InitiateOTPOptions.phone := RegisterOTPRequest.phone request |};
     Ret (ReturnDict [("otp", OTPResult.otp result)]))
    (fun e => handle_sdk_error e).

(** [POST /api/auth/token/refresh] *)
Definition token_refresh (request : RefreshTokenRequest.t) : Prog HandlerResult :=
  try_except
    (tokens ← sdk.auth.refresh_token
       {| RefreshTokenOptions.refresh_token :=
            RefreshTokenRequest.refresh_token request |};
     sdk.set_tokens tokens ;;
     Ret (ReturnDict
            [("access_token", JStr (Tokens.access_token tokens));
             ("refresh_token", JStr (Tokens.refresh_token tokens))]))
    (fun e => handle_sdk_error e).

(** [POST /api/identity/get-encrypted-key] *)
Definition get_encrypted_key (request : GetEncryptedKeyRequest.t)
    (authorization : option string) : Prog HandlerResult :=
  try_except
    (set_auth_from_request authorization ;;
     result ← sdk.identity.encryption.get_key
       {| GetEncryptedKeyOptions.did := GetEncryptedKeyRequest.did request |};
     Ret (ReturnDict
            [("encryptedKey", EncryptedKeyResult.encrypted_key result);
             ("did", EncryptedKeyResult.did result);
             ("message", EncryptedKeyResult.message result)]))
    (fun e => handle_sdk_error e).

(** [POST /api/identity/generate-encrypted-key] *)
Definition generate_encrypted_key (request : GenerateEncryptionKeyRequest.t)
    (authorization : option string) : Prog HandlerResult :=
  try_except
    (set_auth_from_request authorization ;;
     result ← sdk.identity.encryption.generate_key
       {| GenerateEncryptionKeyOptions.did :=
            GenerateEncryptionKeyRequest.did request;
          GenerateEncryptionKeyOptions.owner_email :=
            GenerateEncryptionKeyRequest.owner_email request |};
     Ret (ReturnDict
            [("encryptedKey", GeneratedKeyResult.encrypted_key result);
             ("did", GeneratedKeyResult.did result);
             ("ownerEmail", GeneratedKeyResult.owner_email result);
             ("message", GeneratedKeyResult.message result)]))
    (fun e => handle_sdk_error e).

(** [POST /api/identity/issuer/issue-credential] *)
Definition issue_credential (request : IssueCredentialRequest.t)
    (authorization : option string) : Prog HandlerResult :=
  try_except
    (set_auth_from_request authorization ;;
     result ← sdk.identity.issuer.issue_credential
       {| IssueCredentialOptions.did := IssueCredentialRequest.did request;
          IssueCredentialOptions.credential_name :=
            IssueCredentialRequest.credential_name request;
          IssueCredentialOptions.values := IssueCredentialRequest.values request;
          IssueCredentialOptions.owner_email :=
            IssueCredentialRequest.owner_email request |};
     if contains result "qr_code_link" then
       qr_code_link ← getitem result "qr_code_link";
       schema_type ← getitem result "schema_type";
       Ret (ReturnDict
              [("qrCodeLink", qr_code_link); ("schemaType", schema_type)])
     else
       tx_id ← getitem result "tx_id";
       claim_id ← getitem result "claim_id";
       Ret (ReturnDict [("txId", tx_id); ("claimId", claim_id)]))
    (fun e => handle_sdk_error e).

(** [GET /api/identity/issuer/get-credential-offer] *)
Definition get_credential_offer (claimId txId : string)
    (authorization : option string) : Prog HandlerResult :=
  try_except
    (set_auth_from_request authorization ;;
     result ← sdk.identity.issuer.get_credential_offer
       {| GetCredentialOfferOptions.claim_id := claimId;
          GetCredentialOfferOptions.tx_id := txId |};
     Ret (ReturnDict
            [("status", CredentialOfferResult.status result);
             ("txId", CredentialOfferResult.tx_id result);
             ("claimId", CredentialOfferResult.claim_id result);
             ("offerAvailable", CredentialOfferResult.offer_available result);
             ("qrCodeLink", CredentialOfferResult.qr_code_link result);
             ("offer", CredentialOfferResult.offer result);
             ("message", CredentialOfferResult.message result)]))
    (fun e => handle_sdk_error e).

(** [POST /api/identity/ipfs/store-credential] *)
Definition store_credential (request : StoreCredentialRequest.t)
    (authorization : option string) : Prog HandlerResult :=
  try_except
    (set_auth_from_request authorization ;;
     result ← sdk.identity.ipfs.store_credential
       {| StoreCredentialOptions.did := StoreCredentialRequest.did request;
          StoreCredentialOptions.credential_type :=
            StoreCredentialRequest.credential_type request;
          StoreCredentialOptions.credential :=
            StoreCredentialRequest.credential request;
          StoreCredentialOptions.encrypted :=
            StoreCredentialRequest.encrypted request |};
     Ret (ReturnDict
            [("cid", StoreCredentialResult.cid result);
             ("did", StoreCredentialResult.did result);
             ("credentialType", StoreCredentialResult.credential_type result);
             ("message", StoreCredentialResult.message result);
             ("encrypted", StoreCredentialResult.encrypted result)]))
    (fun e => handle_sdk_error e).

(** [POST /api/identity/ipfs/retrieve-user-credential] *)
Definition retrieve_user_credential (request : RetrieveUserCredentialRequest.t)
    (authorization : option string) : Prog HandlerResult :=
  try_except
    (set_auth_from_request authorization ;;
     result ← sdk.identity.ipfs.retrieve_user_credential
       {| RetrieveUserCredentialOptions.did :=
            RetrieveUserCredentialRequest.did request;
          RetrieveUserCredentialOptions.credential_type :=
            RetrieveUserCredentialRequest.credential_type request;
          RetrieveUserCredentialOptions.include_cid_only :=
            RetrieveUserCredentialRequest.include_cid_only request |};
     Ret (ReturnDict
            [("cid", RetrieveCredentialResult.cid result);
             ("did", RetrieveCredentialResult.did result);
             ("credentialType", RetrieveCredentialResult.credential_type result);
             ("message", RetrieveCredentialResult.message result);
             ("credential", RetrieveCredentialResult.credential result);
             ("encrypted", RetrieveCredentialResult.encrypted result)]))
    (fun e => handle_sdk_error e).

(** [POST /api/identity/get-all-user-credentials] *)
Definition get_all_user_credentials (request : GetAllUserCredentialsRequest.t)
    (authorization : option string) : Prog HandlerResult :=
  try_except
    (set_auth_from_request authorization ;;
     result ← sdk.identity.ipfs.get_all_user_credentials
       {| GetAllUserCredentialsOptions.did :=
            GetAllUserCredentialsRequest.did request;
          GetAllUserCredentialsOptions.include_credential_data :=
            GetAllUserCredentialsRequest.include_credential_data request |};
     Ret (ReturnDict
            [("credentials", AllCredentialsResult.credentials result);
             ("did", AllCredentialsResult.did result);
             ("count", AllCredentialsResult.count result);
             ("message", AllCredentialsResult.message result)]))
    (fun e => handle_sdk_error e).

(** [POST /api/identity/verify/sign-in] *)
Definition verify_sign_in (request : VerifySignInRequest.t)
    (authorization : option string) : Prog HandlerResult :=
  try_except
    (set_auth_from_request authorization ;;
     result ← sdk.identity.verification.verify_sign_in
       {| VerifySignInOptions.credential_name :=
            VerifySignInRequest.credential_name request |};
     Ret (ReturnDict
            [("proofRequestUrl", VerifySignInResult.proof_request_url result);
             ("iden3commUrl", VerifySignInResult.iden3comm_url result);
             ("sessionId", VerifySignInResult.session_id result)]))
    (fun e => handle_sdk_error e).

(** [GET /api/identity/verification/link-store] *)
Definition get_link_store (id : string) (authorization : option string)
    : Prog HandlerResult :=
  try_except
    (set_auth_from_request authorization ;;
     result ← sdk.identity.verification.get_link_store
       {| GetLinkStoreOptions.id := id |};
     Ret (ReturnDict
            [("id", LinkStoreResult.id result);
             ("thid", LinkStoreResult.thid result);
             ("type", LinkStoreResult.type result);
             ("from", LinkStoreResult.from_did result);
             ("typ", LinkStoreResult.typ result);
             ("body", LinkStoreResult.body result)]))
    (fun e => handle_sdk_error e).

(** [POST /api/identity/verification/link-store] *)
Definition post_link_store (request : PostLinkStoreRequest.t)
    (authorization : option string) : Prog HandlerResult :=
  try_except
    (set_auth_from_request authorization ;;
     result ← sdk.identity.verification.post_link_store
       {| PostLinkStoreOptions.id := PostLinkStoreRequest.id request;
          PostLinkStoreOptions.thid := PostLinkStoreRequest.thid request;
          PostLinkStoreOptions.type := PostLinkStoreRequest.type request;
          PostLinkStoreOptions.from_did := PostLinkStoreRequest.from_did request;
          PostLinkStoreOptions.typ := PostLinkStoreRequest.typ request;
          PostLinkStoreOptions.body := PostLinkStoreRequest.body request |};
     Ret (ReturnDict
            [("proofRequestUrl", PostLinkStoreResult.proof_request_url result);
             ("iden3commUrl", PostLinkStoreResult.iden3comm_url result)]))
    (fun e => handle_sdk_error e).

(** [POST /api/identity/verification/callback] *)
Definition verify_callback (request : VerifyCallbackRequest.t) (sessionId : string)
    (authorization : option string) : Prog HandlerResult :=
  try_except
    (set_auth_from_request authorization ;;
     result ← sdk.identity.verification.verify_callback
       {| VerifyCallbackOptions.session_id := sessionId;
          VerifyCallbackOptions.token := VerifyCallbackRequest.token request |};
     Ret (ReturnDict
            [("id", VerifyCallbackResult.id result);
             ("typ", VerifyCallbackResult.typ result);
             ("type", VerifyCallbackResult.type result);
             ("thid", VerifyCallbackResult.thid result);
             ("body", VerifyCallbackResult.body result);
             ("from", VerifyCallbackResult.from_did result);
             ("to", VerifyCallbackResult.to result)]))
    (fun e => handle_sdk_error e).

(** [POST /api/analytics/start-session] *)
Definition start_session (request : StartSessionRequest.t) : Prog HandlerResult :=
  try_except
    (result ← sdk.analytics.start_session
       {| StartSessionEvent.user_id := StartSessionRequest.user_id request;
          StartSessionEvent.anonymous_id :=
            StartSessionRequest.anonymous_id request;
          StartSessionEvent.page_location :=
            StartSessionRequest.page_location request;
          StartSessionEvent.session_id := StartSessionRequest.session_id request |};
     Ret (ReturnDict
            [("success", StartSessionResult.success result);
             ("session_id", StartSessionResult.session_id result);
             ("timestamp", StartSessionResult.timestamp result);
             ("anonymous_id", StartSessionResult.anonymous_id result);
             ("linked", StartSessionResult.linked result)]))
    (fun e => handle_sdk_error e).

(** [POST /api/analytics/end-session] *)
Definition end_session (request : EndSessionRequest.t) : Prog HandlerResult :=
  try_except
    (result ← sdk.analytics.end_session
       {| EndSessionEvent.session_id := EndSessionRequest.session_id request;
          EndSessionEvent.user_id := EndSessionRequest.user_id request;
          EndSessionEvent.anonymous_id := EndSessionRequest.anonymous_id request;
          EndSessionEvent.ended_at := EndSessionRequest.ended_at request |};
     Ret (ReturnDict
            [("success", EndSessionResult.success result);
             ("timestamp", EndSessionResult.timestamp result)]))
    (fun e => handle_sdk_error e).

(** A validated request, as FastAPI hands it to the route function of its
    path: the body model, the query parameters and the [Authorization]
    header that the function declares. *)
Inductive Request : Type :=
| GetHealth
| PostSignInInitiate (request : RegisterOTPRequest.t)
| PostSignInConfirm (request : ConfirmOTPRequest.t)
| PostAdminLogin (request : RegisterOTPRequest.t)
| PostTokenRefresh (request : RefreshTokenRequest.t)
| PostGetEncryptedKey (request : GetEncryptedKeyRequest.t)
    (authorization : option string)
| PostGenerateEncryptedKey (request : GenerateEncryptionKeyRequest.t)
    (authorization : option string)
| PostIssueCredential (request : IssueCredentialRequest.t)
    (authorization : option string)
| GetCredentialOffer (claimId txId : string) (authorization : option string)
| PostStoreCredential (request : StoreCredentialRequest.t)
    (authorization : option string)
| PostRetrieveUserCredential (request : RetrieveUserCredentialRequest.t)
    (authorization : option string)
| PostGetAllUserCredentials (request : GetAllUserCredentialsRequest.t)
    (authorization : option string)
| PostVerifySignIn (request : VerifySignInRequest.t)
    (authorization : option string)
| GetLinkStore (id : string) (authorization : option string)
| PostLinkStore (request : PostLinkStoreRequest.t) (authorization : option string)
| PostVerifyCallback (request : VerifyCallbackRequest.t) (sessionId : string)
    (authorization : option string)
| PostStartSession (request : StartSessionRequest.t)
| PostEndSession (request : EndSessionRequest.t).

(** The router [app]: the route function registered for each path. *)
Definition app (r : Request) : Prog HandlerResult :=
  match r with
  | GetHealth => health
  | PostSignInInitiate request => sign_in_initiate request
  | PostSignInConfirm request => sign_in_confirm request
  | PostAdminLogin request => admin_login request
  | PostTokenRefresh request => token_refresh request
  | PostGetEncryptedKey request authorization =>
      get_encrypted_key request authorization
  | PostGenerateEncryptedKey request authorization =>
      generate_encrypted_key request authorization
  | PostIssueCredential request authorization =>
      issue_credential request authorization
  | GetCredentialOffer claimId txId authorization =>
      get_credential_offer claimId txId authorization
  | PostStoreCredential request authorization =>
      store_credential request authorization
  | PostRetrieveUserCredential request authorization =>
      retrieve_user_credential request authorization
  | PostGetAllUserCredentials request authorization =>
      get_all_user_credentials request authorization
  | PostVerifySignIn request authorization => verify_sign_in request authorization
  | GetLinkStore id authorization => get_link_store id authorization
  | PostLinkStore request authorization => post_link_store request authorization
  | PostVerifyCallback request sessionId authorization =>
      verify_callback request sessionId authorization
  | PostStartSession request => start_session request
  | PostEndSession request => end_session request
  end.

(** *** Request validation

    FastAPI builds the body model before it calls the route function.  A key
    of the body is looked up under the field's alias; a missing key takes the
    field's default, and fails validation when the field has none ([...]).
    How pydantic converts a value that is present to the field's type is the
    library's business and is left open ([validate_str], [validate_bool]). *)
Section Validation.
Variable validate_str : JSON -> option string.
Variable validate_bool : JSON -> option bool.

Definition Field {A : Type} (validate : JSON -> option A) (data : Dict)
    (alias : string) (default : option A) : option A :=
  match data !! alias with
  | Some v => validate v
  | None => default
  end.

(** [class StoreCredentialRequest(BaseModel)] *)
Definition StoreCredentialRequest_validate (data : Dict)
    : option StoreCredentialRequest.t :=
  did ← Field validate_str data "did" None;
  credential_type ← Field validate_str data "credentialType" None;
  credential ← Field Some data "credential" None;
  encrypted ← Field validate_bool data "encrypted" (Some true);
  Some {| StoreCredentialRequest.did := did;
          StoreCredentialRequest.credential_type := credential_type;
          StoreCredentialRequest.credential := credential;
          StoreCredentialRequest.encrypted := encrypted |}.

(** [class RetrieveUserCredentialRequest(BaseModel)] *)
Definition RetrieveUserCredentialRequest_validate (data : Dict)
    : option RetrieveUserCredentialRequest.t :=
  did ← Field validate_str data "did" None;
  credential_type ← Field validate_str data "credentialType" None;
  include_cid_only ← Field validate_bool data "includeCidOnly" (Some false);
  Some {| RetrieveUserCredentialRequest.did := did;
          RetrieveUserCredentialRequest.credential_type := credential_type;
          RetrieveUserCredentialRequest.include_cid_only := include_cid_only |}.

(** [class GetAllUserCredentialsRequest(BaseModel)] *)
Definition GetAllUserCredentialsRequest_validate (data : Dict)
    : option GetAllUserCredentialsRequest.t :=
  did ← Field validate_str data "did" None;
  include_credential_data ←
    Field validate_bool data "includeCredentialData" (Some false);
  Some {| GetAllUserCredentialsRequest.did := did;
          GetAllUserCredentialsRequest.include_credential_data :=
            include_credential_data |}.
End Validation.

(** ** Running a program against an SDK *)

(** Modelled from the spec: the shared SDK client, which is not part of the
    sources.  It "holds a single mutable current auth token field"; the rest
    of the client and of the services behind it is [backend]. *)
Record Client (Backend : Type) : Type := {
  auth_token : option string;
  backend : Backend
}.
Arguments auth_token {Backend} c.
Arguments backend {Backend} c.

(** What a run leaves behind: the lines printed and the SDK calls made, each
    with what it returned or raised. *)
Inductive Event : Type :=
| Printed (line : string)
| Called {X : Type} (op : SdkOp X) (r : Outcome X).

(** An SDK call without its result type. *)
Definition AnyOp : Type := sigT SdkOp.
Definition any {X : Type} (op : SdkOp X) : AnyOp := existT X op.

Definition sdk_calls (tr : list Event) : list AnyOp :=
  flat_map (fun ev =>
    match ev with
    | Printed _ => []
    | Called op _ => [any op]
    end) tr.

(** The exceptions the SDK calls of a run raised. *)
Definition raised (tr : list Event) : list PyException :=
  flat_map (fun ev =>
    match ev with
    | Called _ (Err e) => [e]
    | _ => []
    end) tr.

(** The calls by what they are for: [set_auth_token] installs the bearer
    token, [set_tokens] stores a token pair on the client, every other
    method is an operation of the SDK. *)
Inductive CallKind : Type := Install | StoreTokens | Operation.

Definition call_kind (o : AnyOp) : CallKind :=
  match projT2 o with
  | set_auth_token _ => Install
  | set_tokens _ => StoreTokens
  | _ => Operation
  end.

Definition is_install (o : AnyOp) : bool :=
  match call_kind o with
  | Install => true
  | _ => false
  end.

Section Run.
Context {Backend : Type}.

(** The SDK behind the client: any behaviour at all, a result or an
    exception and a new state for every call. *)
Variable remote :
  forall X : Type, SdkOp X -> Client Backend -> Outcome X * Client Backend.

(** Modelled from the spec: [sdk.set_auth_token] installs the token "as the
    active credential for subsequent SDK calls"; every other method is the
    SDK's own. *)
Definition sdk_do {X : Type} (op : SdkOp X) (c : Client Backend)
    : Outcome X * Client Backend :=
  match op in SdkOp T return Outcome T * Client Backend with
  | set_auth_token token =>
      (Ok tt, {| auth_token := Some token; backend := backend c |})
  | op' => remote _ op' c
  end.

Fixpoint run {A : Type} (p : Prog A) (c : Client Backend)
    : Outcome A * Client Backend * list Event :=
  match p with
  | Ret a => (Ok a, c, [])
  | Raise e => (Err e, c, [])
  | Print line k =>
      let '(out, c', tr) := run k c in (out, c', Printed line :: tr)
  | Call op k =>
      let '(r, c1) := sdk_do op c in
      let '(out, c2, tr) := run (k r) c1 in
      (out, c2, Called op r :: tr)
  end.

Definition result_of {A : Type} (p : Prog A) (c : Client Backend) : Outcome A :=
  (run p c).1.1.
Definition client_after {A : Type} (p : Prog A) (c : Client Backend)
    : Client Backend :=
  (run p c).1.2.
Definition trace_of {A : Type} (p : Prog A) (c : Client Backend) : list Event :=
  (run p c).2.

(** The HTTP response to a request; [Err] when an exception leaves the route
    function, which FastAPI turns into a bare 500 without a JSON body. *)
Definition http (r : Request) (c : Client Backend) : Outcome Response :=
  match result_of (app r) c with
  | Ok res => Ok (respond res)
  | Err e => Err e
  end.
End Run.

(** ** Sample data

    An SDK double and a few exceptions, used to run the server on concrete
    requests. *)

Definition connection_refused : PyException :=
  {| exc_class := NetworkError;
     exc_type_name := "NetworkError";
     exc_str := "connection refused";
     status_code := Some 404;
     is_api_key_error := false;
     code := Some "ECONNREFUSED";
     context := None |}.

Definition bad_api_key : PyException :=
  {| exc_class := AuthenticationError;
     exc_type_name := "AuthenticationError";
     exc_str := "invalid API key";
     status_code := None;
     is_api_key_error := true;
     code := None;
     context :=
       Some {| url := "/auth/otp"; ctx_status_code := "None";
               error_source := "sdk" |} |}.

Definition token_expired : PyException :=
  {| exc_class := AuthenticationError;
     exc_type_name := "AuthenticationError";
     exc_str := "token expired";
     status_code := Some 403;
     is_api_key_error := false;
     code := None;
     context := None |}.

Definition value_error : PyException :=
  {| exc_class := OtherException;
     exc_type_name := "ValueError";
     exc_str := "bad value";
     status_code := None;
     is_api_key_error := false;
     code := None;
     context := None |}.

Definition sample_tokens : Tokens.t :=
  {| Tokens.access_token := "access-1"; Tokens.refresh_token := "refresh-1" |}.

(** The double: OTP confirmation hands out [sample_tokens], [set_tokens]
    keeps the access token, issuing answers with a QR-code link for the
    credential ["qr"] and with a transaction otherwise, sign-in initiation
    fails on a [ValueError], and the remaining methods find the network
    down. *)
Definition sample_sdk (X : Type) (op : SdkOp X) (c : Client unit)
    : Outcome X * Client unit :=
  match op in SdkOp T return Outcome T * Client unit with
  | set_tokens tokens =>
      (Ok tt, {| auth_token := Some (Tokens.access_token tokens);
                 backend := backend c |})
  | auth_confirm_otp _ => (Ok sample_tokens, c)
  | auth_register_otp _ => (Err value_error, c)
  | issuer_issue_credential o =>
      if String.eqb (IssueCredentialOptions.credential_name o) "qr" then
        (Ok (<["qr_code_link" := JStr "iden3comm://offer"]>
               (<["schema_type" := JStr "KYC"]> ∅)), c)
      else
        (Ok (<["tx_id" := JStr "0xabc"]> (<["claim_id" := JStr "17"]> ∅)), c)
  | ipfs_store_credential o =>
      (Ok {| StoreCredentialResult.cid := JStr "bafy";
             StoreCredentialResult.did := JStr (StoreCredentialOptions.did o);
             StoreCredentialResult.credential_type :=
               JStr (StoreCredentialOptions.credential_type o);
             StoreCredentialResult.message := JStr "stored";
             StoreCredentialResult.encrypted :=
               JBool (StoreCredentialOptions.encrypted o) |}, c)
  | _ => (Err connection_refused, c)
  end.

Definition fresh_client : Client unit := {| auth_token := None; backend := tt |}.

Definition sample_initiate : RegisterOTPRequest.t :=
  {| RegisterOTPRequest.email := Some "ada@example.org";
     RegisterOTPRequest.phone := None |}.

Definition sample_confirm : ConfirmOTPRequest.t :=
  {| ConfirmOTPRequest.email := Some "ada@example.org";
     ConfirmOTPRequest.phone := None;
     ConfirmOTPRequest.otp := "123456" |}.

Definition issue_request (credential_name : string) : IssueCredentialRequest.t :=
  {| IssueCredentialRequest.did := "did:iden3:ada";
     IssueCredentialRequest.credential_name := credential_name;
     IssueCredentialRequest.values := ∅;
     IssueCredentialRequest.owner_email := "ada@example.org" |}.

(** A body for each of the three models with an optional flag, without the
    flag. *)
Definition store_body : Dict :=
  <["did" := JStr "did:iden3:ada"]>
    (<["credentialType" := JStr "KYC"]> (<["credential" := JNull]> ∅)).

Definition retrieve_body : Dict :=
  <["did" := JStr "did:iden3:ada"]> (<["credentialType" := JStr "KYC"]> ∅).

Definition all_credentials_body : Dict := <["did" := JStr "did:iden3:ada"]> ∅.

(** pydantic in strict mode, for the samples: a string for [str], a boolean
    for [bool]. *)
Definition strict_str (v : JSON) : option string :=
  match v with JStr s => Some s | _ => None end.
Definition strict_bool (v : JSON) : option bool :=
  match v with JBool b => Some b | _ => None end.

(** ** The error translator *)

(** The classes [handle_sdk_error] knows, in the order the spec gives. *)
Definition classification_order : list ExcClass :=
  [AuthenticationError; NetworkError; ServerError; DCIDServerSDKError].

(** The spec's classification: the first class of the order the error is an
    instance of, if any. *)
Definition spec_first_match (error : PyException) : option ExcClass :=
  find (isinstance error) classification_order.

(** "The error's own status, or [default]": the status the error carries when
    it carries one, a number other than 0, and [default] when it carries
    none, [None] or 0 (what [error.status_code or default] takes for
    false). *)
Definition own_status_or (error : PyException) (default st : Z) : Prop :=
  (forall n, status_code error = Some n -> n <> 0 -> st = n) /\
  (status_code error = None \/ status_code error = Some 0 -> st = default).

(** The lines [handle_sdk_error] prints before it answers. *)
Definition debug_lines (error : PyException) : list Event :=
  Printed ("SDK Error: " ++ exc_type_name error ++ ": " ++ exc_str error) ::
  match context error with
  | Some ctx =>
      [Printed ("  Context: url=" ++ url ctx ++ ", status="
                ++ ctx_status_code ctx ++ ", source=" ++ error_source ctx)]
  | None => []
  end.

(** The token of a header of the form [Bearer <token>]; [None] for an absent
    header and for one that does not start with [Bearer ]. *)
Definition bearer_token (authorization : option string) : option string :=
  match authorization with
  | Some a =>
      if truthy authorization && startswith a "Bearer "
      then Some (slice_from 7 a) else None
  | None => None
  end.

(** The [Authorization] header a route function reads, if it declares one. *)
Definition authorization_of (r : Request) : option string :=
  match r with
  | PostGetEncryptedKey _ authorization
  | PostGenerateEncryptedKey _ authorization
  | PostIssueCredential _ authorization
  | GetCredentialOffer _ _ authorization
  | PostStoreCredential _ authorization
  | PostRetrieveUserCredential _ authorization
  | PostGetAllUserCredentials _ authorization
  | PostVerifySignIn _ authorization
  | GetLinkStore _ authorization
  | PostLinkStore _ authorization
  | PostVerifyCallback _ _ authorization => authorization
  | _ => None
  end.

(** The two routes that hand the token pair they received to
    [sdk.set_tokens]. *)
Definition stores_tokens (r : Request) : bool :=
  match r with
  | PostSignInConfirm _ | PostTokenRefresh _ => true
  | _ => false
  end.

(** The SDK calls of a request that is answered with the handler's own
    dict, by kind and in order. *)
Definition expected_calls (r : Request) : list CallKind :=
  match r with
  | GetHealth => []
  | _ =>
      (match bearer_token (authorization_of r) with
       | Some _ => [Install]
       | None => []
       end ++
       [Operation] ++
       (if stores_tokens r then [StoreTokens] else []))%list
  end.

(** The calls of a trace other than the installation of the bearer token. *)
Definition calls_beyond_install (tr : list Event) : list AnyOp :=
  List.filter (fun o => negb (is_install o)) (sdk_calls tr).

Definition count_kind (k : CallKind) (tr : list Event) : nat :=
  length (List.filter (fun o =>
            match call_kind o, k with
            | Install, Install | StoreTokens, StoreTokens
            | Operation, Operation => true
            | _, _ => false
            end) (sdk_calls tr)).

Arguments debug_lines : simpl never.
Arguments raised : simpl never.
Arguments sdk_calls : simpl never.

(** ** The remaining parts of main.py *)

(** The request with its [Authorization] header replaced, for the routes
    that read one. *)
Definition with_authorization (r : Request) (a : option string) : Request :=
  match r with
  | PostGetEncryptedKey request _ => PostGetEncryptedKey request a
  | PostGenerateEncryptedKey request _ => PostGenerateEncryptedKey request a
  | PostIssueCredential request _ => PostIssueCredential request a
  | GetCredentialOffer claimId txId _ => GetCredentialOffer claimId txId a
  | PostStoreCredential request _ => PostStoreCredential request a
  | PostRetrieveUserCredential request _ => PostRetrieveUserCredential request a
  | PostGetAllUserCredentials request _ => PostGetAllUserCredentials request a
  | PostVerifySignIn request _ => PostVerifySignIn request a
  | GetLinkStore id _ => GetLinkStore id a
  | PostLinkStore request _ => PostLinkStore request a
  | PostVerifyCallback request sessionId _ => PostVerifyCallback request sessionId a
  | _ => r
  end.

(** The tokens a run passed to [sdk.set_auth_token], in order. *)
Definition installed (tr : list Event) : list string :=
  flat_map (fun ev =>
    match ev with
    | Called op _ =>
        match op with
        | set_auth_token token => [token]
        | _ => []
        end
    | Printed _ => []
    end) tr.

(** The token pairs a run passed to [sdk.set_tokens], in order. *)
Definition stored (tr : list Event) : list Tokens.t :=
  flat_map (fun ev =>
    match ev with
    | Called op _ =>
        match op with
        | set_tokens tokens => [tokens]
        | _ => []
        end
    | Printed _ => []
    end) tr.

(** *** More request models *)

(** An [Optional[...]] field: [null] is [None], anything else goes by the
    type. *)
Definition validate_optional {A : Type} (validate : JSON -> option A) (v : JSON)
    : option (option A) :=
  match v with
  | JNull => Some None
  | _ => Some <$> validate v
  end.

(** [class RegisterOTPRequest(BaseModel)] *)
Definition RegisterOTPRequest_validate (validate_str : JSON -> option string)
    (data : Dict) : option RegisterOTPRequest.t :=
  email ← Field (validate_optional validate_str) data "email" (Some None);
  phone ← Field (validate_optional validate_str) data "phone" (Some None);
  Some {| RegisterOTPRequest.email := email; RegisterOTPRequest.phone := phone |}.

(** [class ConfirmOTPRequest(BaseModel)] *)
Definition ConfirmOTPRequest_validate (validate_str : JSON -> option string)
    (data : Dict) : option ConfirmOTPRequest.t :=
  email ← Field (validate_optional validate_str) data "email" (Some None);
  phone ← Field (validate_optional validate_str) data "phone" (Some None);
  otp ← Field validate_str data "otp" None;
  Some {| ConfirmOTPRequest.email := email;
          ConfirmOTPRequest.phone := phone;
          ConfirmOTPRequest.otp := otp |}.

(** [class RefreshTokenRequest(BaseModel)] *)
Definition RefreshTokenRequest_validate (validate_str : JSON -> option string)
    (data : Dict) : option RefreshTokenRequest.t :=
  refresh_token ← Field validate_str data "refreshToken" None;
  Some {| RefreshTokenRequest.refresh_token := refresh_token |}.

(** *** Start-up *)

(** [os.environ], after [load_dotenv()]. *)
Abbreviation Environ := (gmap string string).

(** [os.getenv(key)] *)
Definition getenv (environ : Environ) (key : string) : option string :=
  environ !! key.

(** [os.getenv(key, default)] *)
Definition getenv_default (environ : Environ) (key default : string) : string :=
  match environ !! key with
  | Some v => v
  | None => default
  end.

Definition RuntimeError (message : string) : PyException :=
  {| exc_class := OtherException;
     exc_type_name := "RuntimeError";
     exc_str := message;
     status_code := None;
     is_api_key_error := false;
     code := None;
     context := None |}.

(** The keyword arguments of [DCIDServerSDK(...)]. *)
Module DCIDServerSDK.
Record t : Type := {
  api_key : string;
  environment : string;
  timeout : Z;
  enable_request_logging : bool
}.
End DCIDServerSDK.

(** "Initialize SDK": the module-level code that reads the API key and the
    environment.  [Ok]: the keyword arguments with which it constructs
    [DCIDServerSDK]; [Err]: it raises before it gets there, and the server
    does not start. *)
Definition initialize_sdk (environ : Environ) : Outcome DCIDServerSDK.t :=
  let api_key := getenv environ "DCID_API_KEY" in
  match api_key with
  | Some key =>
      if negb (truthy api_key) then
        Err (RuntimeError "DCID_API_KEY environment variable is required")
      else
        let environment := getenv_default environ "DCID_ENVIRONMENT" "dev" in
        Ok {| DCIDServerSDK.api_key := key;
              DCIDServerSDK.environment := environment;
              DCIDServerSDK.timeout := 120000;
              DCIDServerSDK.enable_request_logging := true |}
  | None => Err (RuntimeError "DCID_API_KEY environment variable is required")
  end.

(** *** Exceptions of any shape *)

(** A Python object as the second debug line of [handle_sdk_error] sees it:
    the name of its type and, for each attribute it has, the text that
    formatting gives. *)
Record PyObject : Type := {
  obj_type_name : string;
  obj_attrs : gmap string string
}.

(** [AttributeError], raised by [o.name] when [o] has no such attribute. *)
Definition AttributeError (type_name name : string) : PyException :=
  {| exc_class := OtherException;
     exc_type_name := "AttributeError";
     exc_str := "'" ++ type_name ++ "' object has no attribute '" ++ name ++ "'";
     status_code := None;
     is_api_key_error := false;
     code := None;
     context := None |}.

(** [o.name] inside an f-string. *)
Definition getattr (o : PyObject) (name : string) : Prog string :=
  match obj_attrs o !! name with
  | Some v => Ret v
  | None => Raise (AttributeError (obj_type_name o) name)
  end.

(** An instance of [Exception] with whatever [context] attribute it has:
    [None] when the attribute is missing or false, the object otherwise.
    The other fields are those of [PyException]. *)
Record AnyException : Type := {
  any_class : ExcClass;
  any_type_name : string;
  any_str : string;
  any_status_code : option Z;
  any_is_api_key_error : bool;
  any_code : option string;
  any_context : option PyObject
}.

Definition any_isinstance (error : AnyException) (c : ExcClass) : bool :=
  issubclass (any_class error) c.

(** [handle_sdk_error] on an exception of any shape: the second debug line
    reads [url], [status_code] and [error_source] of the context, in this
    order, and an attribute that is not there raises [AttributeError] out of
    the function. *)
Definition handle_sdk_error_any (error : AnyException) : Prog HandlerResult :=
  print ("SDK Error: " ++ any_type_name error ++ ": " ++ any_str error) ;;
  match any_context error with
  | Some ctx =>
      url ← getattr ctx "url";
      status_code ← getattr ctx "status_code";
      error_source ← getattr ctx "error_source";
      print ("  Context: url=" ++ url ++ ", status=" ++ status_code
             ++ ", source=" ++ error_source)
  | None => Ret tt
  end ;;
  if any_isinstance error AuthenticationError then
    Ret (JSONResponse
           (py_or (any_status_code error) status.HTTP_401_UNAUTHORIZED)
           [("error", JStr (any_str error));
            ("type", JStr "AuthenticationError");
            ("isAPIKeyError", JBool (any_is_api_key_error error))])
  else if any_isinstance error NetworkError then
    Ret (JSONResponse
           status.HTTP_502_BAD_GATEWAY
           [("error", JStr (any_str error));
            ("type", JStr "NetworkError");
            ("code", opt_str (any_code error))])
  else if any_isinstance error ServerError then
    Ret (JSONResponse
           (py_or (any_status_code error) status.HTTP_500_INTERNAL_SERVER_ERROR)
           [("error", JStr (any_str error)); ("type", JStr "ServerError")])
  else if any_isinstance error DCIDServerSDKError then
    Ret (JSONResponse
           (py_or (any_status_code error) status.HTTP_500_INTERNAL_SERVER_ERROR)
           [("error", JStr (any_str error)); ("type", JStr "SDKError")])
  else
    Ret (JSONResponse
           status.HTTP_500_INTERNAL_SERVER_ERROR
           [("error", JStr (any_str error)); ("type", JStr "UnknownError")]).

(** The SDK's context as an object. *)
Definition context_object (ctx : ErrorContext) : PyObject :=
  {| obj_type_name := "ErrorContext";
     obj_attrs :=
       <["url" := url ctx]>
         (<["status_code" := ctx_status_code ctx]>
            (<["error_source" := error_source ctx]> ∅)) |}.

(** An exception of type [PyException] among the exceptions of any shape. *)
Definition any_exception (e : PyException) : AnyException :=
  {| any_class := exc_class e;
     any_type_name := exc_type_name e;
     any_str := exc_str e;
     any_status_code := status_code e;
     any_is_api_key_error := is_api_key_error e;
     any_code := code e;
     any_context := context_object <$> context e |}.

(** An exception of any shape without its context. *)
Definition without_context (error : AnyException) : PyException :=
  {| exc_class := any_class error;
     exc_type_name := any_type_name error;
     exc_str := any_str error;
     status_code := any_status_code error;
     is_api_key_error := any_is_api_key_error error;
     code := any_code error;
     context := None |}.

(** The second debug line can be printed: there is no context, or it has the
    three attributes the line reads. *)
Definition context_prints (error : AnyException) : Prop :=
  match any_context error with
  | Some ctx =>
      is_Some (obj_attrs ctx !! "url") /\
      is_Some (obj_attrs ctx !! "status_code") /\
      is_Some (obj_attrs ctx !! "error_source")
  | None => True
  end.

(** "Carries no status": the attribute is [None], or the 0 that is false
    for [or]. *)
Definition no_status (error : PyException) : Prop :=
  status_code error = None \/ status_code error = Some 0.

(** A network error without a status, as a transport failure is. *)
Definition timed_out : PyException :=
  {| exc_class := NetworkError;
     exc_type_name := "NetworkError";
     exc_str := "timed out";
     status_code := Some 0;
     is_api_key_error := false;
     code := Some "ETIMEDOUT";
     context := None |}.

(** An exception from outside the SDK whose [context] is a non-empty list:
    true, and without a [url]. *)
Definition foreign_error : AnyException :=
  {| any_class := OtherException;
     any_type_name := "ValidationError";
     any_str := "1 is not valid under any of the given schemas";
     any_status_code := None;
     any_is_api_key_error := false;
     any_code := None;
     any_context := Some {| obj_type_name := "list"; obj_attrs := ∅ |} |}.

Arguments handle_sdk_error_any : simpl never.

Arguments installed : simpl never.
Arguments stored : simpl never.

(** *** More sample data *)

(** An SDK that answers as scripted: what [confirm_otp], [refresh_token] and
    [set_tokens] return or raise and the dict [issue_credential] returns;
    the remaining methods find the network down.  It leaves the client
    alone. *)
Definition scripted_sdk (confirm refresh : Outcome Tokens.t) (set : Outcome unit)
    (issue : Dict) (X : Type) (op : SdkOp X) (c : Client unit)
    : Outcome X * Client unit :=
  match op in SdkOp T return Outcome T * Client unit with
  | set_tokens _ => (set, c)
  | auth_confirm_otp _ => (confirm, c)
  | auth_refresh_token _ => (refresh, c)
  | issuer_issue_credential _ => (Ok issue, c)
  | _ => (Err connection_refused, c)
  end.

Definition sample_refresh : RefreshTokenRequest.t :=
  {| RefreshTokenRequest.refresh_token := "refresh-0" |}.

Definition sample_key_request : GetEncryptedKeyRequest.t :=
  {| GetEncryptedKeyRequest.did := "did:iden3:ada" |}.

(** A body with all three optional flags set against their defaults. *)
Definition flags_body : Dict :=
  <["did" := JStr "did:iden3:ada"]>
    (<["credentialType" := JStr "KYC"]>
       (<["credential" := JNull]>
          (<["encrypted" := JBool false]>
             (<["includeCidOnly" := JBool true]>
                (<["includeCredentialData" := JBool true]> ∅))))).

(** An environment with the API key and an empty [DCID_ENVIRONMENT]. *)
Definition sample_environ : Environ :=
  <["DCID_API_KEY" := "key-1"]> (<["DCID_ENVIRONMENT" := ""]> ∅).

(** * Properties *)

Lemma py_or_own_status error default :
  own_status_or error default (py_or (status_code error) default).
Proof.
  unfold own_status_or, py_or. split.
  - intros n -> Hn. destruct (Z.eqb_spec n 0); congruence.
  - now intros [-> | ->].
Qed.

Lemma slice_from_bearer token : slice_from 7 ("Bearer " ++ token) = token.
Proof. reflexivity. Qed.

Lemma startswith_bearer token : startswith ("Bearer " ++ token) "Bearer " = true.
Proof.
  unfold startswith. cbn.
  repeat (rewrite Ascii.eqb_refl; cbn).
  now destruct token.
Qed.

Create Rewrite HintDb trace.

Section Properties.
Context {Backend : Type}.
Variable remote :
  forall X : Type, SdkOp X -> Client Backend -> Outcome X * Client Backend.

(** The response of [handle_sdk_error], branch by branch; it touches neither
    the client nor the SDK, and prints only. *)
Lemma run_handle_sdk_error error c :
  run remote (handle_sdk_error error) c
  = (Ok (if isinstance error AuthenticationError then
           JSONResponse (py_or (status_code error) 401)
             [("error", JStr (exc_str error));
              ("type", JStr "AuthenticationError");
              ("isAPIKeyError", JBool (is_api_key_error error))]
         else if isinstance error NetworkError then
           JSONResponse 502
             [("error", JStr (exc_str error));
              ("type", JStr "NetworkError");
              ("code", opt_str (code error))]
         else if isinstance error ServerError then
           JSONResponse (py_or (status_code error) 500)
             [("error", JStr (exc_str error)); ("type", JStr "ServerError")]
         else if isinstance error DCIDServerSDKError then
           JSONResponse (py_or (status_code error) 500)
             [("error", JStr (exc_str error)); ("type", JStr "SDKError")]
         else
           JSONResponse 500
             [("error", JStr (exc_str error)); ("type", JStr "UnknownError")]),
     c, debug_lines error).
Proof.
  unfold handle_sdk_error, debug_lines.
  destruct (context error); cbn;
    repeat match goal with |- context [if ?b then _ else _] => destruct b end;
    reflexivity.
Qed.

(** On an exception whose second debug line can be printed,
    [handle_sdk_error_any] answers as [handle_sdk_error] does on the
    exception without its context, and only prints. *)
Lemma run_handle_sdk_error_any error c :
  context_prints error ->
  exists tr,
    run remote (handle_sdk_error_any error) c
    = (result_of remote (handle_sdk_error (without_context error)) c, c, tr) /\
    sdk_calls tr = [].
Proof.
  intros Hprints. unfold result_of. rewrite run_handle_sdk_error.
  unfold handle_sdk_error_any, context_prints, any_isinstance, isinstance in *.
  destruct error as [cls name msg st flag cd [ctx|]]; cbn in *.
  - destruct Hprints as ([u Hu] & [s Hs] & [x Hx]). unfold getattr.
    rewrite Hu, Hs, Hx.
    destruct cls; cbn; eexists; split; reflexivity.
  - destruct cls; cbn; eexists; split; reflexivity.
Qed.

(** The two embeddings of [handle_sdk_error] agree on [PyException]. *)
Lemma handle_sdk_error_any_agrees (e : PyException) (c : Client Backend) :
  run remote (handle_sdk_error_any (any_exception e)) c
  = run remote (handle_sdk_error e) c.
Proof.
  rewrite run_handle_sdk_error.
  unfold handle_sdk_error_any, any_isinstance, isinstance, debug_lines.
  destruct e as [cls name msg st flag cd [ctx|]]; cbn;
    destruct cls; reflexivity.
Qed.


(** C2.  An SDK error that carries a status, a number other than 0, is
    answered with that status; one that carries none ([None], or the 0 that
    stands for none) is answered with the default of its class: 401 for an
    authentication error, 502 for a network error, 500 for a server or other
    SDK error.  A network error is a transport failure and carries no
    status. *)
Theorem handle_sdk_error_status (error : PyException) (c : Client Backend) :
  isinstance error DCIDServerSDKError = true ->
  (isinstance error NetworkError = true -> no_status error) ->
  exists st body,
    result_of remote (handle_sdk_error error) c = Ok (JSONResponse st body) /\
    (forall n, status_code error = Some n -> n <> 0 -> st = n) /\
    (no_status error ->
     st = if isinstance error AuthenticationError then 401
          else if isinstance error NetworkError then 502
          else 500).
Proof.
  unfold result_of. rewrite run_handle_sdk_error. unfold isinstance, no_status.
  destruct (py_or_own_status error 401) as [A1 A2].
  destruct (py_or_own_status error 500) as [B1 B2].
  destruct (exc_class error); cbn; intros Hsdk Hnet; try discriminate Hsdk;
    eexists _, _; (split; [reflexivity|]); split; auto.
  intros n Hn Hn0. destruct (Hnet eq_refl) as [H|H]; congruence.
Qed.

(** C3.  A network error gets status 502, whatever status or code it
    carries, and its [code] is in the body. *)
Theorem network_error_is_502 (error : PyException) (c : Client Backend) :
  isinstance error NetworkError = true ->
  exists body,
    run remote (handle_sdk_error error) c
    = (Ok (JSONResponse status.HTTP_502_BAD_GATEWAY body), c, debug_lines error) /\
    item "code" body = Some (opt_str (code error)).
Proof.
  intros H. rewrite run_handle_sdk_error. unfold isinstance in *.
  destruct (exc_class error); try discriminate. cbn.
  eexists; split; reflexivity.
Qed.

(** C9.  [/health] answers 200 with the fixed body, for every state of the
    client and every SDK; it neither calls the SDK nor changes the client. *)
Theorem health_fixed_response (c : Client Backend) :
  http remote GetHealth c
  = Ok {| http_status := 200;
          http_body := [("status", JStr "ok");
                        ("service", JStr "dcid-server-sdk-test-server")] |} /\
  client_after remote (app GetHealth) c = c /\
  trace_of remote (app GetHealth) c = [].
Proof. repeat split. Qed.

(** C7.  For a header [Bearer <token>], [set_auth_from_request] makes one
    call, [set_auth_token] with exactly the text after the prefix, which
    becomes the client's auth token; for an absent header, or one that does
    not start with [Bearer ], it makes no call and the client is unchanged. *)
Theorem set_auth_from_request_bearer :
  (forall (token : string) (c : Client Backend),
     run remote (set_auth_from_request (Some ("Bearer " ++ token))) c
     = (Ok tt, {| auth_token := Some token; backend := backend c |},
        [Called (set_auth_token token) (Ok tt)])) /\
  (forall (authorization : option string) (c : Client Backend),
     (forall a, authorization = Some a -> startswith a "Bearer " = false) ->
     run remote (set_auth_from_request authorization) c = (Ok tt, c, [])).
Proof.
  split.
  - intros token c. unfold set_auth_from_request.
    rewrite startswith_bearer, slice_from_bearer. reflexivity.
  - intros [a|] c H; [|reflexivity].
    unfold set_auth_from_request. rewrite (H a eq_refl).
    now rewrite andb_false_r.
Qed.

Lemma run_bind {A B : Type} (p : Prog A) (f : A -> Prog B) (c : Client Backend) :
  run remote (bind p f) c
  = match run remote p c with
    | (Ok a, c1, tr) =>
        let '(out, c2, tr2) := run remote (f a) c1 in (out, c2, (tr ++ tr2)%list)
    | (Err e, c1, tr) => (Err e, c1, tr)
    end.
Proof.
  revert c. induction p as [a|e|line k IH|X op k IH]; intros c; cbn.
  - now destruct (run remote (f a) c) as [[out c2] tr2].
  - reflexivity.
  - rewrite IH. destruct (run remote k c) as [[[a|e] c1] tr]; [|reflexivity].
    now destruct (run remote (f a) c1) as [[out c2] tr2].
  - destruct (sdk_do remote op c) as [r c1]. rewrite IH.
    destruct (run remote (k r) c1) as [[[a|e] c2] tr]; [|reflexivity].
    now destruct (run remote (f a) c2) as [[out c3] tr2].
Qed.

Lemma run_try_except {A : Type} (p : Prog A) (h : PyException -> Prog A)
    (c : Client Backend) :
  run remote (try_except p h) c
  = match run remote p c with
    | (Ok a, c1, tr) => (Ok a, c1, tr)
    | (Err e, c1, tr) =>
        let '(out, c2, tr2) := run remote (h e) c1 in (out, c2, (tr ++ tr2)%list)
    end.
Proof.
  revert c. induction p as [a|e|line k IH|X op k IH]; intros c; cbn.
  - reflexivity.
  - now destruct (run remote (h e) c) as [[out c2] tr2].
  - rewrite IH. destruct (run remote k c) as [[[a|e] c1] tr]; [reflexivity|].
    now destruct (run remote (h e) c1) as [[out c2] tr2].
  - destruct (sdk_do remote op c) as [r c1]. rewrite IH.
    destruct (run remote (k r) c1) as [[[a|e] c2] tr]; [reflexivity|].
    now destruct (run remote (h e) c2) as [[out c3] tr2].
Qed.

(** Running the bearer-token helper: it returns, after at most one call. *)
Lemma run_set_auth_from_request (authorization : option string) (c : Client Backend) :
  run remote (set_auth_from_request authorization) c
  = match authorization with
    | Some a =>
        if truthy authorization && startswith a "Bearer " then
          (Ok tt, {| auth_token := Some (slice_from 7 a); backend := backend c |},
           [Called (set_auth_token (slice_from 7 a)) (Ok tt)])
        else (Ok tt, c, [])
    | None => (Ok tt, c, [])
    end.
Proof.
  unfold set_auth_from_request. destruct authorization as [a|]; [|reflexivity].
  now destruct (truthy (Some a) && startswith a "Bearer ").
Qed.

Lemma raised_app (tr1 tr2 : list Event) :
  raised (tr1 ++ tr2)%list = (raised tr1 ++ raised tr2)%list.
Proof. unfold raised. apply flat_map_app. Qed.

Lemma sdk_calls_app (tr1 tr2 : list Event) :
  sdk_calls (tr1 ++ tr2)%list = (sdk_calls tr1 ++ sdk_calls tr2)%list.
Proof. unfold sdk_calls. apply flat_map_app. Qed.

Lemma raised_debug_lines error : raised (debug_lines error) = [].
Proof. unfold debug_lines. now destruct (context error). Qed.

Lemma sdk_calls_debug_lines error : sdk_calls (debug_lines error) = [].
Proof. unfold debug_lines. now destruct (context error). Qed.

Lemma raised_nil : raised [] = [].
Proof. reflexivity. Qed.

Lemma raised_returned {X : Type} (op : SdkOp X) (x : X) (tr : list Event) :
  raised (Called op (Ok x) :: tr) = raised tr.
Proof. reflexivity. Qed.

Lemma raised_failed {X : Type} (op : SdkOp X) (e : PyException) (tr : list Event) :
  raised (Called op (Err e) :: tr) = e :: raised tr.
Proof. reflexivity. Qed.

Lemma sdk_calls_nil : sdk_calls [] = [].
Proof. reflexivity. Qed.

Lemma sdk_calls_called {X : Type} (op : SdkOp X) (r : Outcome X) (tr : list Event) :
  sdk_calls (Called op r :: tr) = any op :: sdk_calls tr.
Proof. reflexivity. Qed.

#[local] Hint Rewrite raised_nil @raised_returned @raised_failed raised_debug_lines
  sdk_calls_nil @sdk_calls_called sdk_calls_debug_lines : trace.

(** What the error response of [handle_sdk_error] holds for every error. *)
Lemma handle_sdk_error_structured (error : PyException) (c : Client Backend) :
  exists st body t,
    run remote (handle_sdk_error error) c
    = (Ok (JSONResponse st body), c, debug_lines error) /\
    item "error" body = Some (JStr (exc_str error)) /\
    item "type" body = Some (JStr t) /\
    (isinstance error DCIDServerSDKError = false ->
     st = 500 /\ t = "UnknownError") /\
    incl (keys body) ["error"; "type"; "isAPIKeyError"; "code"].
Proof.
  rewrite run_handle_sdk_error. unfold isinstance.
  destruct (exc_class error); cbn; eexists _, _, _;
    (split; [reflexivity|]); repeat split; try reflexivity; try discriminate;
    intros k Hk; cbn in *; tauto.
Qed.



Lemma set_auth_from_request_eq (authorization : option string) :
  set_auth_from_request authorization
  = match bearer_token authorization with
    | Some token => sdk.set_auth_token token
    | None => Ret tt
    end.
Proof.
  unfold set_auth_from_request, bearer_token.
  destruct authorization as [a|]; [|reflexivity].
  now destruct (truthy (Some a) && startswith a "Bearer ").
Qed.

Ltac destruct_step :=
  match goal with
  | |- context [set_auth_from_request ?a] =>
      rewrite (set_auth_from_request_eq a);
      destruct (bearer_token a) eqn:?
  | |- context [remote ?X ?op ?c] =>
      let r := fresh "r" in
      let e := fresh "e" in
      let c1 := fresh "c" in
      destruct (remote X op c) as [[r|e] c1] eqn:?
  | |- context [run remote (handle_sdk_error ?e) ?c] =>
      let st := fresh "st" in
      let body := fresh "body" in
      let t := fresh "t" in
      let Hrun := fresh "Hrun" in
      destruct (handle_sdk_error_structured e c)
        as (st & body & t & Hrun & ? & ? & ? & ?);
      rewrite Hrun; clear Hrun
  | |- context [contains _ _] => unfold contains, getitem
  | |- context [getitem _ _] => unfold getitem
  | |- context [match ?d !! ?k with _ => _ end] => destruct (d !! k) eqn:?
  end.

Ltac unfold_handlers :=
  cbn [app];
  unfold health, sign_in_initiate, sign_in_confirm, admin_login, token_refresh,
    get_encrypted_key, generate_encrypted_key, issue_credential,
    get_credential_offer, store_credential, retrieve_user_credential,
    get_all_user_credentials, verify_sign_in, get_link_store, post_link_store,
    verify_callback, start_session, end_session.

Ltac run_handler := repeat (cbn; try destruct_step).

(** X20.  No route function lets an exception of type [PyException] out (an
    SDK error, or any exception without a context of another shape): every
    request is answered with a response, and when an SDK call of the handler
    raised, whatever the class of the exception, the answer is a JSON body
    with the [error] message and a [type] tag; an exception that is no SDK
    error gets status 500 and the type [UnknownError].  Every [JSONResponse]
    of a handler has the two items. *)
Theorem handlers_answer_every_exception (r : Request) (c : Client Backend) :
  exists res,
    result_of remote (app r) c = Ok res /\
    http remote r c = Ok (respond res) /\
    (forall e, In e (raised (trace_of remote (app r) c)) ->
       exists st body t,
         res = JSONResponse st body /\
         item "error" body = Some (JStr (exc_str e)) /\
         item "type" body = Some (JStr t) /\
         (isinstance e DCIDServerSDKError = false ->
          st = 500 /\ t = "UnknownError")) /\
    (forall st body, res = JSONResponse st body ->
       exists message t,
         item "error" body = Some (JStr message) /\
         item "type" body = Some (JStr t)).
Proof.
  unfold http, result_of, trace_of.
  destruct r; unfold_handlers; run_handler;
    (eexists; split; [reflexivity|]); (split; [reflexivity|]);
    autorewrite with trace; (split; [|intros ? ? [=]; subst; eauto]);
    intros e' He'; repeat destruct He' as [<-|He']; try contradiction;
    eauto 10.
Qed.

(** C5, as amended.  A request answered with the handler's own dict made
    these SDK calls and no other: the installation of the bearer token first,
    when the handler reads the header and it has the form [Bearer <token>];
    then one operation of the SDK (none for [/health]); then, for sign-in
    confirmation and token refresh only, [sdk.set_tokens]. *)
Theorem handler_sdk_calls (r : Request) (c : Client Backend) (content : Body) :
  result_of remote (app r) c = Ok (ReturnDict content) ->
  map call_kind (sdk_calls (trace_of remote (app r) c)) = expected_calls r /\
  count_kind Operation (trace_of remote (app r) c)
  = match r with GetHealth => 0%nat | _ => 1%nat end /\
  count_kind StoreTokens (trace_of remote (app r) c)
  = (if stores_tokens r then 1%nat else 0%nat) /\
  (count_kind Install (trace_of remote (app r) c) <= 1)%nat.
Proof.
  unfold result_of, trace_of, count_kind, expected_calls.
  destruct r; cbn [authorization_of stores_tokens];
    unfold_handlers; run_handler; intros Hres; try discriminate Hres;
    autorewrite with trace;
    repeat match goal with H : bearer_token _ = _ |- _ => rewrite H; clear H end;
    cbn; auto.
Qed.

(** C6.  When the dict the SDK returned for an issue-credential request has
    a QR-code link (with its schema type), the response is exactly
    [{qrCodeLink, schemaType}] with these two values; when it has no QR-code
    link but a transaction id (with its claim id), the response is exactly
    [{txId, claimId}]; and no response of the route has keys of both. *)
Theorem issue_credential_shapes :
  (forall request authorization c result c',
     sdk_do remote
       (issuer_issue_credential
          {| IssueCredentialOptions.did := IssueCredentialRequest.did request;
             IssueCredentialOptions.credential_name :=
               IssueCredentialRequest.credential_name request;
             IssueCredentialOptions.values :=
               IssueCredentialRequest.values request;
             IssueCredentialOptions.owner_email :=
               IssueCredentialRequest.owner_email request |})
       (client_after remote (set_auth_from_request authorization) c)
     = (Ok result, c') ->
     (forall link schema,
        result !! "qr_code_link" = Some link ->
        result !! "schema_type" = Some schema ->
        http remote (PostIssueCredential request authorization) c
        = Ok {| http_status := 200;
                http_body := [("qrCodeLink", link); ("schemaType", schema)] |}) /\
     (forall tx claim,
        result !! "qr_code_link" = None ->
        result !! "tx_id" = Some tx ->
        result !! "claim_id" = Some claim ->
        http remote (PostIssueCredential request authorization) c
        = Ok {| http_status := 200;
                http_body := [("txId", tx); ("claimId", claim)] |})) /\
  (forall request authorization c resp,
     http remote (PostIssueCredential request authorization) c = Ok resp ->
     ~ ((In "qrCodeLink" (keys (http_body resp)) \/
         In "schemaType" (keys (http_body resp))) /\
        (In "txId" (keys (http_body resp)) \/
         In "claimId" (keys (http_body resp))))).
Proof.
  split.
  - intros request authorization c result c' Hcall.
    unfold http, result_of, client_after in *. cbn [app]. unfold issue_credential.
    rewrite set_auth_from_request_eq in *.
    destruct (bearer_token authorization); cbn in *; rewrite Hcall;
      (split; [intros link schema Hl Hs | intros tx claim Hq Ht Hc]);
      unfold contains, getitem; cbn;
      repeat match goal with H : _ !! _ = _ |- _ => rewrite H; clear H end;
      reflexivity.
  - intros request authorization c resp.
    unfold http, result_of. unfold_handlers. run_handler.
    all: intros [= <-]; cbn.
    all: intros [[Hq|Hq] [Ht|Ht]];
      try match goal with
          | H : incl _ _ |- _ => apply H in Hq; apply H in Ht
          end;
      cbn in *; intuition discriminate.
Qed.

(** C8.  When the SDK calls of an OTP confirmation return, the response is
    [{access_token, refresh_token}] with exactly the two tokens that
    [confirm_otp] returned, under these names, and status 200. *)
Theorem sign_in_confirm_echoes_tokens (request : ConfirmOTPRequest.t)
    (c c1 c2 : Client Backend) (tokens : Tokens.t) :
  sdk_do remote
    (auth_confirm_otp
       {| ConfirmOTPOptions.email := ConfirmOTPRequest.email request;
          ConfirmOTPOptions.phone := ConfirmOTPRequest.phone request;
          ConfirmOTPOptions.otp := ConfirmOTPRequest.otp request |}) c
  = (Ok tokens, c1) ->
  sdk_do remote (set_tokens tokens) c1 = (Ok tt, c2) ->
  http remote (PostSignInConfirm request) c
  = Ok {| http_status := 200;
          http_body :=
            [("access_token", JStr (Tokens.access_token tokens));
             ("refresh_token", JStr (Tokens.refresh_token tokens))] |}.
Proof.
  intros Hconfirm Hset. unfold http, result_of. cbn in *.
  rewrite Hconfirm. cbn. rewrite Hset. reflexivity.
Qed.
(** C10.  A body without the optional flag makes the handler call the SDK
    with the default: [encrypted] true for store-credential,
    [include_cid_only] false for retrieve-user-credential and
    [include_credential_data] false for get-all-user-credentials. *)
Theorem optional_flags_default (validate_str : JSON -> option string)
    (validate_bool : JSON -> option bool) :
  (forall data request authorization c,
     data !! "encrypted" = None ->
     StoreCredentialRequest_validate validate_str validate_bool data
     = Some request ->
     calls_beyond_install
       (trace_of remote (app (PostStoreCredential request authorization)) c)
     = [any (ipfs_store_credential
               {| StoreCredentialOptions.did :=
                    StoreCredentialRequest.did request;
                  StoreCredentialOptions.credential_type :=
                    StoreCredentialRequest.credential_type request;
                  StoreCredentialOptions.credential :=
                    StoreCredentialRequest.credential request;
                  StoreCredentialOptions.encrypted := true |})]) /\
  (forall data request authorization c,
     data !! "includeCidOnly" = None ->
     RetrieveUserCredentialRequest_validate validate_str validate_bool data
     = Some request ->
     calls_beyond_install
       (trace_of remote (app (PostRetrieveUserCredential request authorization)) c)
     = [any (ipfs_retrieve_user_credential
               {| RetrieveUserCredentialOptions.did :=
                    RetrieveUserCredentialRequest.did request;
                  RetrieveUserCredentialOptions.credential_type :=
                    RetrieveUserCredentialRequest.credential_type request;
                  RetrieveUserCredentialOptions.include_cid_only := false |})]) /\
  (forall data request authorization c,
     data !! "includeCredentialData" = None ->
     GetAllUserCredentialsRequest_validate validate_str validate_bool data
     = Some request ->
     calls_beyond_install
       (trace_of remote (app (PostGetAllUserCredentials request authorization)) c)
     = [any (ipfs_get_all_user_credentials
               {| GetAllUserCredentialsOptions.did :=
                    GetAllUserCredentialsRequest.did request;
                  GetAllUserCredentialsOptions.include_credential_data :=
                    false |})]).
Proof.
  repeat split; intros data request authorization c Hnone Hvalid.
  - assert (StoreCredentialRequest.encrypted request = true) as <-.
    { unfold StoreCredentialRequest_validate, Field in Hvalid.
      rewrite Hnone in Hvalid. simplify_option_eq. reflexivity. }
    unfold trace_of, calls_beyond_install. unfold_handlers. run_handler;
      autorewrite with trace; reflexivity.
  - assert (RetrieveUserCredentialRequest.include_cid_only request = false) as <-.
    { unfold RetrieveUserCredentialRequest_validate, Field in Hvalid.
      rewrite Hnone in Hvalid. simplify_option_eq. reflexivity. }
    unfold trace_of, calls_beyond_install. unfold_handlers. run_handler;
      autorewrite with trace; reflexivity.
  - assert (GetAllUserCredentialsRequest.include_credential_data request = false)
      as <-.
    { unfold GetAllUserCredentialsRequest_validate, Field in Hvalid.
      rewrite Hnone in Hvalid. simplify_option_eq. reflexivity. }
    unfold trace_of, calls_beyond_install. unfold_handlers. run_handler;
      autorewrite with trace; reflexivity.
Qed.

(** Beside C6: a dict with a QR-code link and no schema type is answered by
    the error translator, as the [KeyError] it is. *)
Lemma issue_credential_missing_schema_type request authorization c result c' link :
  sdk_do remote
    (issuer_issue_credential
       {| IssueCredentialOptions.did := IssueCredentialRequest.did request;
          IssueCredentialOptions.credential_name :=
            IssueCredentialRequest.credential_name request;
          IssueCredentialOptions.values := IssueCredentialRequest.values request;
          IssueCredentialOptions.owner_email :=
            IssueCredentialRequest.owner_email request |})
    (client_after remote (set_auth_from_request authorization) c)
  = (Ok result, c') ->
  result !! "qr_code_link" = Some link ->
  result !! "schema_type" = None ->
  http remote (PostIssueCredential request authorization) c
  = Ok {| http_status := 500;
          http_body := [("error", JStr "'schema_type'");
                        ("type", JStr "UnknownError")] |}.
Proof.
  intros Hcall Hl Hs.
  unfold http, result_of, client_after in *. cbn [app]. unfold issue_credential.
  rewrite set_auth_from_request_eq in *.
  destruct (bearer_token authorization); cbn in *; rewrite Hcall;
    unfold contains, getitem; cbn; rewrite Hl; cbn; rewrite Hs; cbn;
    rewrite run_handle_sdk_error; reflexivity.
Qed.

(** ** Beyond the claims *)

Lemma installed_nil : installed [] = [].
Proof. reflexivity. Qed.

Lemma installed_called {X : Type} (op : SdkOp X) (r : Outcome X) (tr : list Event) :
  installed (Called op r :: tr)
  = (match op with set_auth_token token => [token] | _ => [] end
     ++ installed tr)%list.
Proof. reflexivity. Qed.

Lemma installed_debug_lines error : installed (debug_lines error) = [].
Proof. unfold debug_lines. now destruct (context error). Qed.

Lemma stored_nil : stored [] = [].
Proof. reflexivity. Qed.

Lemma stored_called {X : Type} (op : SdkOp X) (r : Outcome X) (tr : list Event) :
  stored (Called op r :: tr)
  = (match op with set_tokens tokens => [tokens] | _ => [] end ++ stored tr)%list.
Proof. reflexivity. Qed.

Lemma stored_debug_lines error : stored (debug_lines error) = [].
Proof. unfold debug_lines. now destruct (context error). Qed.

#[local] Hint Rewrite installed_nil @installed_called installed_debug_lines
  stored_nil @stored_called stored_debug_lines : trace.

(** A header that starts with [Bearer ] is that prefix and the rest. *)
Lemma startswith_bearer_inv (a : string) :
  startswith a "Bearer " = true -> a = "Bearer " ++ slice_from 7 a.
Proof.
  unfold startswith. intros H.
  do 7 (destruct a as [|? a]; [discriminate H|];
        cbn -[Ascii.ascii_dec] in H;
        match type of H with
        | context [Ascii.ascii_dec ?x ?y] =>
            destruct (Ascii.ascii_dec x y) as [<-|]; [|discriminate H]
        end).
  reflexivity.
Qed.

Lemma bearer_token_iff (authorization : option string) (token : string) :
  bearer_token authorization = Some token
  <-> authorization = Some ("Bearer " ++ token).
Proof.
  split.
  - destruct authorization as [a|]; [|discriminate]. unfold bearer_token.
    destruct (truthy (Some a)); cbn; [|discriminate].
    destruct (startswith a "Bearer ") eqn:Hs; [|discriminate].
    intros [= <-]. f_equal. now apply startswith_bearer_inv.
  - intros ->. unfold bearer_token.
    rewrite startswith_bearer, slice_from_bearer. reflexivity.
Qed.

(** X1.  A token refresh whose SDK calls return answers 200 with exactly the
    pair [refresh_token] returned, hands exactly that pair to
    [sdk.set_tokens], and leaves the client as [set_tokens] left it. *)
Theorem token_refresh_echoes_tokens (request : RefreshTokenRequest.t)
    (c c1 c2 : Client Backend) (tokens : Tokens.t) :
  sdk_do remote
    (auth_refresh_token
       {| RefreshTokenOptions.refresh_token :=
            RefreshTokenRequest.refresh_token request |}) c
  = (Ok tokens, c1) ->
  sdk_do remote (set_tokens tokens) c1 = (Ok tt, c2) ->
  http remote (PostTokenRefresh request) c
  = Ok {| http_status := 200;
          http_body :=
            [("access_token", JStr (Tokens.access_token tokens));
             ("refresh_token", JStr (Tokens.refresh_token tokens))] |} /\
  stored (trace_of remote (app (PostTokenRefresh request)) c) = [tokens] /\
  client_after remote (app (PostTokenRefresh request)) c = c2.
Proof.
  intros Hrefresh Hset. unfold http, result_of, trace_of, client_after.
  cbn in *. rewrite Hrefresh. cbn. rewrite Hset. cbn.
  autorewrite with trace. auto.
Qed.

(** X2.  When the OTP confirmation or the token refresh itself raises,
    [sdk.set_tokens] is not called: the operation is the only SDK call, no
    token pair is stored, and the client is as the failed call left it. *)
Theorem failed_operation_stores_no_tokens :
  (forall request c c1 e,
     sdk_do remote
       (auth_confirm_otp
          {| ConfirmOTPOptions.email := ConfirmOTPRequest.email request;
             ConfirmOTPOptions.phone := ConfirmOTPRequest.phone request;
             ConfirmOTPOptions.otp := ConfirmOTPRequest.otp request |}) c
     = (Err e, c1) ->
     stored (trace_of remote (app (PostSignInConfirm request)) c) = [] /\
     length (sdk_calls (trace_of remote (app (PostSignInConfirm request)) c))
     = 1%nat /\
     client_after remote (app (PostSignInConfirm request)) c = c1) /\
  (forall request c c1 e,
     sdk_do remote
       (auth_refresh_token
          {| RefreshTokenOptions.refresh_token :=
               RefreshTokenRequest.refresh_token request |}) c
     = (Err e, c1) ->
     stored (trace_of remote (app (PostTokenRefresh request)) c) = [] /\
     length (sdk_calls (trace_of remote (app (PostTokenRefresh request)) c))
     = 1%nat /\
     client_after remote (app (PostTokenRefresh request)) c = c1).
Proof.
  split; intros request c c1 e Hcall;
    unfold trace_of, client_after; cbn in *; rewrite Hcall; cbn;
    rewrite run_handle_sdk_error; cbn; autorewrite with trace; auto.
Qed.


(** X4.  Only sign-in confirmation and token refresh ever call
    [sdk.set_tokens]; on every other route no token pair is stored, whatever
    the SDK does. *)
Theorem only_token_routes_store_tokens (r : Request) (c : Client Backend) :
  stores_tokens r = false ->
  stored (trace_of remote (app r) c) = [].
Proof.
  unfold trace_of.
  destruct r; cbn [stores_tokens]; intros H; try discriminate H;
    unfold_handlers; run_handler; autorewrite with trace; reflexivity.
Qed.

(** X5.  A request with the header [Bearer <token>] is handled as the token
    installation followed by the same request without the header, run on
    the client that holds the token. *)
Theorem bearer_header_is_install_then_handle (r : Request) (token : string)
    (c : Client Backend) :
  bearer_token (authorization_of r) = Some token ->
  run remote (app r) c
  = let '(out, c', tr) :=
      run remote (app (with_authorization r None))
        {| auth_token := Some token; backend := backend c |} in
    (out, c', Called (set_auth_token token) (Ok tt) :: tr).
Proof.
  destruct r; cbn [authorization_of with_authorization app]; intros H;
    try discriminate H;
    unfold_handlers; rewrite !set_auth_from_request_eq, H; reflexivity.
Qed.

(** X6.  A header that is not of the form [Bearer <token>] makes no
    difference: the request is handled exactly as without a header, with
    whatever token the client already holds. *)
Theorem malformed_header_is_absent_header (r : Request) (c : Client Backend) :
  bearer_token (authorization_of r) = None ->
  run remote (app r) c = run remote (app (with_authorization r None)) c.
Proof.
  destruct r; cbn [authorization_of with_authorization app]; intros H;
    try reflexivity;
    unfold_handlers; rewrite !set_auth_from_request_eq, H; reflexivity.
Qed.

(** X7.  [set_auth_from_request] installs a token exactly for the headers
    [Bearer <token>], and then the token is the whole rest of the header,
    empty or not. *)
Theorem installs_iff_bearer (authorization : option string) (token : string)
    (c : Client Backend) :
  installed (trace_of remote (set_auth_from_request authorization) c) = [token]
  <-> authorization = Some ("Bearer " ++ token).
Proof.
  rewrite <- bearer_token_iff. unfold trace_of.
  rewrite set_auth_from_request_eq.
  destruct (bearer_token authorization) as [t|]; cbn; autorewrite with trace.
  - split; intros [= ->]; reflexivity.
  - split; discriminate.
Qed.

(** X8.  A handler calls [sdk.set_auth_token] once, with the token of its
    request's bearer header, whether or not the operation then succeeds;
    without a bearer header, and on the routes that read no header, it never
    calls [sdk.set_auth_token].  (What [sdk.set_tokens] does to the client's
    token on the two token routes is the SDK's business.) *)
Theorem handler_installs_header_token (r : Request) (c : Client Backend) :
  installed (trace_of remote (app r) c)
  = match bearer_token (authorization_of r) with
    | Some token => [token]
    | None => []
    end.
Proof.
  unfold trace_of.
  destruct r; cbn [authorization_of]; unfold_handlers; run_handler;
    autorewrite with trace;
    repeat match goal with H : bearer_token _ = _ |- _ => rewrite H; clear H end;
    reflexivity.
Qed.

(** X9.  When the operations of the SDK leave the client's auth token alone,
    a request on a route that stores no tokens leaves as the client's token
    the one of its bearer header, and without such a header the token the
    client held before: the token of an earlier request stays in force. *)
Theorem token_stays_installed (r : Request) (c : Client Backend) :
  (forall (X : Type) (op : SdkOp X) (c0 : Client Backend),
     call_kind (any op) = Operation ->
     auth_token (remote X op c0).2 = auth_token c0) ->
  stores_tokens r = false ->
  auth_token (client_after remote (app r) c)
  = match bearer_token (authorization_of r) with
    | Some token => Some token
    | None => auth_token c
    end.
Proof.
  intros Hkeep. unfold client_after.
  destruct r; cbn [authorization_of stores_tokens]; intros H;
    try discriminate H; unfold_handlers;
    repeat (cbn;
      try match goal with
          | |- context [set_auth_from_request ?a] =>
              rewrite (set_auth_from_request_eq a);
              destruct (bearer_token a) eqn:?
          | |- context [remote ?X ?op ?c0] =>
              let E := fresh "E" in
              pose proof (Hkeep X op c0 eq_refl) as E;
              destruct (remote X op c0) as [[?|?] ?]; cbn in E
          | |- context [run remote (handle_sdk_error ?e) ?c0] =>
              rewrite (run_handle_sdk_error e c0)
          | |- context [contains _ _] => unfold contains, getitem
          | |- context [getitem _ _] => unfold getitem
          | |- context [match ?d !! ?k with _ => _ end] =>
              destruct (d !! k) eqn:?
          end);
    try assumption; reflexivity.
Qed.

(** X10.  No retry: at most one SDK call of a request raises, and after it
    the handler only prints the debug lines; no further SDK call is made. *)
Theorem no_call_after_failure (r : Request) (c : Client Backend) :
  (length (raised (trace_of remote (app r) c)) <= 1)%nat /\
  forall e, In e (raised (trace_of remote (app r) c)) ->
    exists (before : list Event) (X : Type) (op : SdkOp X),
      trace_of remote (app r) c
      = (before ++ Called op (Err e) :: debug_lines e)%list /\
      raised before = [].
Proof.
  unfold trace_of.
  destruct r; unfold_handlers; run_handler; autorewrite with trace;
    (split; [cbn; lia|]);
    intros e' He'; repeat destruct He' as [<-|He']; try contradiction;
    first [ exists []; eexists _, _; split; reflexivity
          | eexists [_]; eexists _, _; split; reflexivity ].
Qed.

(** X11.  The [error] key tells failure from success on every route: a
    handler's own dict never has it and is sent with status 200 after no SDK
    call raised, and every error response has it. *)
Theorem error_key_discriminates (r : Request) (c : Client Backend) :
  exists res,
    result_of remote (app r) c = Ok res /\
    match res with
    | ReturnDict content =>
        item "error" content = None /\
        http_status (respond res) = 200 /\
        raised (trace_of remote (app r) c) = []
    | JSONResponse _ body => exists message, item "error" body = Some (JStr message)
    end.
Proof.
  unfold result_of, trace_of.
  destruct r; unfold_handlers; run_handler;
    (eexists; split; [reflexivity|]); autorewrite with trace; cbn; eauto.
Qed.

(** X12.  The error body starts with [error] and [type]; [isAPIKeyError] is
    in it exactly for an authentication error and [code] exactly for a
    network error, and there is no other key. *)
Theorem error_body_keys_by_class (error : PyException) (c : Client Backend) :
  exists st body,
    result_of remote (handle_sdk_error error) c = Ok (JSONResponse st body) /\
    (exists rest, keys body = "error" :: "type" :: rest /\
                  incl rest ["isAPIKeyError"; "code"]) /\
    (In "isAPIKeyError" (keys body)
     <-> isinstance error AuthenticationError = true) /\
    (In "code" (keys body) <-> isinstance error NetworkError = true).
Proof.
  unfold result_of. rewrite run_handle_sdk_error. unfold isinstance.
  destruct (exc_class error); cbn; eexists _, _;
    (split; [reflexivity|]); cbn;
    (split; [eexists; split; [reflexivity|]; intros k Hk; cbn in *; tauto|]);
    split; split; intros H; try reflexivity; try discriminate H;
    cbn in *; intuition discriminate.
Qed.


(** X14.  An issue-credential result that lacks the key its shape needs is
    answered with status 500, type [UnknownError] and the quoted name of the
    missing key as the message: [schema_type] beside a QR-code link, and
    [tx_id], then [claim_id], without one. *)
Theorem issue_credential_incomplete_result (request : IssueCredentialRequest.t)
    (authorization : option string) (c c' : Client Backend) (result : Dict) :
  sdk_do remote
    (issuer_issue_credential
       {| IssueCredentialOptions.did := IssueCredentialRequest.did request;
          IssueCredentialOptions.credential_name :=
            IssueCredentialRequest.credential_name request;
          IssueCredentialOptions.values := IssueCredentialRequest.values request;
          IssueCredentialOptions.owner_email :=
            IssueCredentialRequest.owner_email request |})
    (client_after remote (set_auth_from_request authorization) c)
  = (Ok result, c') ->
  let missing (k : string) :=
    http remote (PostIssueCredential request authorization) c
    = Ok {| http_status := 500;
            http_body := [("error", JStr ("'" ++ k ++ "'"));
                          ("type", JStr "UnknownError")] |} in
  (result !! "qr_code_link" <> None -> result !! "schema_type" = None ->
   missing "schema_type") /\
  (result !! "qr_code_link" = None -> result !! "tx_id" = None ->
   missing "tx_id") /\
  (result !! "qr_code_link" = None -> result !! "tx_id" <> None ->
   result !! "claim_id" = None -> missing "claim_id").
Proof.
  intros Hcall missing. subst missing.
  unfold http, result_of, client_after in *. cbn [app]. unfold issue_credential.
  rewrite set_auth_from_request_eq in *.
  destruct (bearer_token authorization); cbn in *; rewrite Hcall;
    unfold contains, getitem; cbn;
    destruct (result !! "qr_code_link"), (result !! "schema_type"),
      (result !! "tx_id"), (result !! "claim_id"); cbn;
    rewrite ?run_handle_sdk_error; cbn;
    repeat split; intros; try congruence; reflexivity.
Qed.

(** X15.  A flag that is in the body reaches the SDK as pydantic read it:
    [encrypted], [includeCidOnly] and [includeCredentialData] are forwarded
    under the SDK's names, not replaced by the default. *)
Theorem explicit_flags_forwarded (validate_str : JSON -> option string)
    (validate_bool : JSON -> option bool) :
  (forall data v request authorization c,
     data !! "encrypted" = Some v ->
     StoreCredentialRequest_validate validate_str validate_bool data
     = Some request ->
     exists b,
       validate_bool v = Some b /\
       calls_beyond_install
         (trace_of remote (app (PostStoreCredential request authorization)) c)
       = [any (ipfs_store_credential
                 {| StoreCredentialOptions.did :=
                      StoreCredentialRequest.did request;
                    StoreCredentialOptions.credential_type :=
                      StoreCredentialRequest.credential_type request;
                    StoreCredentialOptions.credential :=
                      StoreCredentialRequest.credential request;
                    StoreCredentialOptions.encrypted := b |})]) /\
  (forall data v request authorization c,
     data !! "includeCidOnly" = Some v ->
     RetrieveUserCredentialRequest_validate validate_str validate_bool data
     = Some request ->
     exists b,
       validate_bool v = Some b /\
       calls_beyond_install
         (trace_of remote
            (app (PostRetrieveUserCredential request authorization)) c)
       = [any (ipfs_retrieve_user_credential
                 {| RetrieveUserCredentialOptions.did :=
                      RetrieveUserCredentialRequest.did request;
                    RetrieveUserCredentialOptions.credential_type :=
                      RetrieveUserCredentialRequest.credential_type request;
                    RetrieveUserCredentialOptions.include_cid_only := b |})]) /\
  (forall data v request authorization c,
     data !! "includeCredentialData" = Some v ->
     GetAllUserCredentialsRequest_validate validate_str validate_bool data
     = Some request ->
     exists b,
       validate_bool v = Some b /\
       calls_beyond_install
         (trace_of remote
            (app (PostGetAllUserCredentials request authorization)) c)
       = [any (ipfs_get_all_user_credentials
                 {| GetAllUserCredentialsOptions.did :=
                      GetAllUserCredentialsRequest.did request;
                    GetAllUserCredentialsOptions.include_credential_data :=
                      b |})]).
Proof.
  repeat split; intros data v request authorization c Hflag Hvalid.
  - exists (StoreCredentialRequest.encrypted request). split.
    { unfold StoreCredentialRequest_validate, Field in Hvalid.
      rewrite Hflag in Hvalid. simplify_option_eq. reflexivity. }
    unfold trace_of, calls_beyond_install. unfold_handlers. run_handler;
      autorewrite with trace; reflexivity.
  - exists (RetrieveUserCredentialRequest.include_cid_only request). split.
    { unfold RetrieveUserCredentialRequest_validate, Field in Hvalid.
      rewrite Hflag in Hvalid. simplify_option_eq. reflexivity. }
    unfold trace_of, calls_beyond_install. unfold_handlers. run_handler;
      autorewrite with trace; reflexivity.
  - exists (GetAllUserCredentialsRequest.include_credential_data request). split.
    { unfold GetAllUserCredentialsRequest_validate, Field in Hvalid.
      rewrite Hflag in Hvalid. simplify_option_eq. reflexivity. }
    unfold trace_of, calls_beyond_install. unfold_handlers. run_handler;
      autorewrite with trace; reflexivity.
Qed.

(** X17.  The server itself does not ask for an email or a phone number: a
    sign-in body with neither, absent or [null], validates, and sign-in
    initiation and admin login pass the request on to the SDK with both
    empty. *)
Theorem register_otp_accepts_empty_body (validate_str : JSON -> option string)
    (data : Dict) (c : Client Backend) :
  (data !! "email" = None \/ data !! "email" = Some JNull) ->
  (data !! "phone" = None \/ data !! "phone" = Some JNull) ->
  exists request,
    RegisterOTPRequest_validate validate_str data = Some request /\
    sdk_calls (trace_of remote (app (PostSignInInitiate request)) c)
    = [any (auth_register_otp
              {| InitiateOTPOptions.email := None;
                 InitiateOTPOptions.phone := None |})] /\
    sdk_calls (trace_of remote (app (PostAdminLogin request)) c)
    = [any (auth_admin_login
              {| InitiateOTPOptions.email := None;
                 InitiateOTPOptions.phone := None |})].
Proof.
  unfold RegisterOTPRequest_validate, Field, trace_of.
  intros [-> | ->] [-> | ->]; cbn; (eexists; split; [reflexivity|]);
    unfold_handlers; split; run_handler; autorewrite with trace; reflexivity.
Qed.

(** X21.  [handle_sdk_error] returns a response exactly when the second
    debug line can be printed: for an exception whose context lacks [url],
    [status_code] or [error_source], an [AttributeError] leaves the function
    after the first debug line, before any response is built, with the
    client untouched. *)
Theorem handle_sdk_error_answers_iff_context_prints (error : AnyException)
    (c : Client Backend) :
  ((exists res, result_of remote (handle_sdk_error_any error) c = Ok res)
   <-> context_prints error) /\
  (forall e, result_of remote (handle_sdk_error_any error) c = Err e ->
     exc_type_name e = "AttributeError" /\
     client_after remote (handle_sdk_error_any error) c = c /\
     trace_of remote (handle_sdk_error_any error) c
     = [Printed ("SDK Error: " ++ any_type_name error ++ ": " ++ any_str error)]).
Proof.
  unfold result_of, client_after, trace_of, handle_sdk_error_any, context_prints,
    any_isinstance, getattr.
  destruct error as [cls name msg st flag cd [[ty attrs]|]]; cbn.
  - destruct (attrs !! "url") as [u|]; cbn;
      [destruct (attrs !! "status_code") as [s|]; cbn;
       [destruct (attrs !! "error_source") as [x|]; cbn|]|].
    + destruct cls; cbn; (split; [split; eauto|]); intros e [=].
    + split; [split; [intros [res [=]] | intros (_ & _ & [x [=]])]|].
      intros e [= <-]. auto.
    + split; [split; [intros [res [=]] | intros (_ & [x [=]] & _)]|].
      intros e [= <-]. auto.
    + split; [split; [intros [res [=]] | intros ([x [=]] & _)]|].
      intros e [= <-]. auto.
  - destruct cls; cbn; (split; [split; eauto|]); intros e [=].
Qed.

End Properties.

(** X16.  A body that lacks a required key does not validate, whatever else
    it holds: [did], [credentialType] and [credential] for the credential
    models, [otp] for the OTP confirmation, and [refreshToken], which the
    Python name [refresh_token] does not replace. *)
Theorem missing_required_field_fails_validation
    (validate_str : JSON -> option string) (validate_bool : JSON -> option bool)
    (data : Dict) :
  (data !! "did" = None ->
   StoreCredentialRequest_validate validate_str validate_bool data = None /\
   RetrieveUserCredentialRequest_validate validate_str validate_bool data = None /\
   GetAllUserCredentialsRequest_validate validate_str validate_bool data = None) /\
  (data !! "credentialType" = None ->
   StoreCredentialRequest_validate validate_str validate_bool data = None /\
   RetrieveUserCredentialRequest_validate validate_str validate_bool data = None) /\
  (data !! "credential" = None ->
   StoreCredentialRequest_validate validate_str validate_bool data = None) /\
  (data !! "otp" = None -> ConfirmOTPRequest_validate validate_str data = None) /\
  (data !! "refreshToken" = None ->
   RefreshTokenRequest_validate validate_str data = None).
Proof.
  unfold StoreCredentialRequest_validate, RetrieveUserCredentialRequest_validate,
    GetAllUserCredentialsRequest_validate, ConfirmOTPRequest_validate,
    RefreshTokenRequest_validate, Field.
  repeat match goal with
         | |- _ /\ _ => split
         | |- _ -> _ => let H := fresh in intros H; rewrite H
         end;
    repeat case_match; unfold validate_optional; cbn;
    repeat match goal with
           | |- context [match ?v with JNull => _ | _ => _ end] =>
               destruct v; cbn
           | |- context [validate_str ?v] => destruct (validate_str v); cbn
           | |- context [validate_bool ?v] => destruct (validate_bool v); cbn
           end;
    reflexivity.
Qed.

(** X18.  Start-up gets to constructing the SDK client exactly when
    [DCID_API_KEY] is set and not empty, and then hands that key to the SDK
    unchanged; otherwise it raises the [RuntimeError] that names the
    variable. *)
Theorem initialize_sdk_requires_api_key (environ : Environ) :
  (forall key, environ !! "DCID_API_KEY" = Some key -> key <> "" ->
     exists sdk_args,
       initialize_sdk environ = Ok sdk_args /\
       DCIDServerSDK.api_key sdk_args = key) /\
  (environ !! "DCID_API_KEY" = None \/ environ !! "DCID_API_KEY" = Some "" ->
   initialize_sdk environ
   = Err (RuntimeError "DCID_API_KEY environment variable is required")).
Proof.
  unfold initialize_sdk, getenv. split.
  - intros key -> Hkey. destruct key; [congruence|]. cbn. eauto.
  - intros [-> | ->]; reflexivity.
Qed.

(** X19.  When the SDK client is constructed, its environment is the value of
    [DCID_ENVIRONMENT] as it is set, an empty value included, and [dev] only
    when the variable is not set; the timeout is 120000 and request logging
    is on in every environment. *)
Theorem initialize_sdk_environment (environ : Environ)
    (sdk_args : DCIDServerSDK.t) :
  initialize_sdk environ = Ok sdk_args ->
  DCIDServerSDK.environment sdk_args
  = match environ !! "DCID_ENVIRONMENT" with
    | Some value => value
    | None => "dev"
    end /\
  DCIDServerSDK.timeout sdk_args = 120000 /\
  DCIDServerSDK.enable_request_logging sdk_args = true.
Proof.
  unfold initialize_sdk, getenv, getenv_default.
  destruct (environ !! "DCID_API_KEY") as [[|]|]; cbn; intros [= <-];
    repeat split.
Qed.

(** ** The server on the sample data *)


Lemma handle_sdk_error_status_witness :
  (exists st body,
     result_of sample_sdk (handle_sdk_error token_expired) fresh_client
     = Ok (JSONResponse st body) /\
     st = 403) /\
  (exists st body,
     result_of sample_sdk (handle_sdk_error timed_out) fresh_client
     = Ok (JSONResponse st body) /\
     st = 502).
Proof.
  split.
  - destruct (handle_sdk_error_status sample_sdk token_expired fresh_client)
      as (st & body & Hres & Hown & _).
    + reflexivity.
    + intros H. discriminate H.
    + exists st, body. split; [exact Hres|].
      apply (Hown 403); [reflexivity | lia].
  - destruct (handle_sdk_error_status sample_sdk timed_out fresh_client)
      as (st & body & Hres & _ & Hdefault).
    + reflexivity.
    + intros _. right. reflexivity.
    + exists st, body. split; [exact Hres|].
      apply Hdefault. right. reflexivity.
Defined.

Lemma network_error_is_502_witness :
  exists body,
    run sample_sdk (handle_sdk_error connection_refused) fresh_client
    = (Ok (JSONResponse 502 body), fresh_client, debug_lines connection_refused) /\
    item "code" body = Some (JStr "ECONNREFUSED").
Proof.
  apply (network_error_is_502 sample_sdk connection_refused fresh_client).
  reflexivity.
Defined.

(** C4.  The code at the failing input: for an exception from outside the
    SDK whose [context] is a non-empty list, the second debug line of
    [handle_sdk_error] raises [AttributeError] after the first line is
    printed.  Every route function returns [handle_sdk_error(e)] from its
    [except] clause, so the exception leaves the route function and no JSON
    body is built. *)
Lemma foreign_context_leaves_handle_sdk_error :
  run sample_sdk (handle_sdk_error_any foreign_error) fresh_client
  = (Err (AttributeError "list" "url"), fresh_client,
     [Printed
        "SDK Error: ValidationError: 1 is not valid under any of the given schemas"]).
Proof. reflexivity. Qed.

Lemma handlers_answer_every_exception_witness :
  exists res st body,
    result_of sample_sdk (app (PostSignInInitiate sample_initiate)) fresh_client
    = Ok res /\
    res = JSONResponse st body /\
    st = 500 /\
    item "error" body = Some (JStr "bad value") /\
    item "type" body = Some (JStr "UnknownError").
Proof.
  destruct (handlers_answer_every_exception sample_sdk
              (PostSignInInitiate sample_initiate) fresh_client)
    as (res & Hres & _ & Hraised & _).
  destruct (Hraised value_error) as (st & body & t & -> & Herror & Htype & Hunknown).
  { left. reflexivity. }
  destruct (Hunknown eq_refl) as [-> ->].
  exists (JSONResponse 500 body), 500, body. auto.
Defined.

(** Against C5 as the spec words it: a confirmed sign-in makes two SDK calls
    that are no bearer-token installation, [confirm_otp] and [set_tokens]. *)
Lemma sign_in_confirm_calls_set_tokens :
  ~ (forall (r : Request) (content : Body),
       result_of sample_sdk (app r) fresh_client = Ok (ReturnDict content) ->
       length (calls_beyond_install (trace_of sample_sdk (app r) fresh_client))
       = 1%nat).
Proof.
  intros H.
  specialize (H (PostSignInConfirm sample_confirm) _ eq_refl).
  discriminate H.
Qed.

Lemma handler_sdk_calls_witness :
  map call_kind
    (sdk_calls
       (trace_of sample_sdk (app (PostSignInConfirm sample_confirm)) fresh_client))
  = [Operation; StoreTokens] /\
  count_kind Operation
    (trace_of sample_sdk (app (PostSignInConfirm sample_confirm)) fresh_client)
  = 1%nat /\
  count_kind StoreTokens
    (trace_of sample_sdk (app (PostSignInConfirm sample_confirm)) fresh_client)
  = 1%nat /\
  (count_kind Install
     (trace_of sample_sdk (app (PostSignInConfirm sample_confirm)) fresh_client)
   <= 1)%nat.
Proof.
  apply (handler_sdk_calls sample_sdk (PostSignInConfirm sample_confirm)
           fresh_client
           [("access_token", JStr "access-1"); ("refresh_token", JStr "refresh-1")]).
  reflexivity.
Defined.

Lemma issue_credential_shapes_witness :
  http sample_sdk (PostIssueCredential (issue_request "qr") (Some "Bearer t0"))
    fresh_client
  = Ok {| http_status := 200;
          http_body := [("qrCodeLink", JStr "iden3comm://offer");
                        ("schemaType", JStr "KYC")] |} /\
  http sample_sdk (PostIssueCredential (issue_request "tx") None) fresh_client
  = Ok {| http_status := 200;
          http_body := [("txId", JStr "0xabc"); ("claimId", JStr "17")] |} /\
  ~ ((In "qrCodeLink" [("txId" : string); "claimId"] \/
      In "schemaType" ["txId"; "claimId"]) /\
     (In "txId" ["txId"; "claimId"] \/ In "claimId" ["txId"; "claimId"])).
Proof.
  destruct (issue_credential_shapes sample_sdk) as [Hshape Hexclusive].
  split; [|split].
  - eapply (proj1 (Hshape (issue_request "qr") (Some "Bearer t0") fresh_client
                     _ _ eq_refl));
      reflexivity.
  - eapply (proj2 (Hshape (issue_request "tx") None fresh_client _ _ eq_refl));
      reflexivity.
  - apply (Hexclusive (issue_request "tx") None fresh_client
             {| http_status := 200;
                http_body := [("txId", JStr "0xabc"); ("claimId", JStr "17")] |}).
    reflexivity.
Defined.

Lemma set_auth_from_request_bearer_witness :
  run sample_sdk (set_auth_from_request (Some "Bearer abc.def")) fresh_client
  = (Ok tt, {| auth_token := Some "abc.def"; backend := tt |},
     [Called (set_auth_token "abc.def") (Ok tt)]) /\
  run sample_sdk (set_auth_from_request (Some "Basic abc")) fresh_client
  = (Ok tt, fresh_client, []) /\
  run sample_sdk (set_auth_from_request None) fresh_client
  = (Ok tt, fresh_client, []).
Proof.
  destruct (set_auth_from_request_bearer sample_sdk) as [Hbearer Hother].
  split; [|split].
  - exact (Hbearer "abc.def" fresh_client).
  - apply Hother. intros a [= <-]. reflexivity.
  - apply Hother. intros a [=].
Defined.

Lemma sign_in_confirm_echoes_tokens_witness :
  http sample_sdk (PostSignInConfirm sample_confirm) fresh_client
  = Ok {| http_status := 200;
          http_body := [("access_token", JStr "access-1");
                        ("refresh_token", JStr "refresh-1")] |}.
Proof.
  apply (sign_in_confirm_echoes_tokens sample_sdk sample_confirm fresh_client
           fresh_client {| auth_token := Some "access-1"; backend := tt |}
           sample_tokens);
    reflexivity.
Defined.

Lemma optional_flags_default_witness :
  calls_beyond_install
    (trace_of sample_sdk
       (app (PostStoreCredential
               {| StoreCredentialRequest.did := "did:iden3:ada";
                  StoreCredentialRequest.credential_type := "KYC";
                  StoreCredentialRequest.credential := JNull;
                  StoreCredentialRequest.encrypted := true |}
               (Some "Bearer t0")))
       fresh_client)
  = [any (ipfs_store_credential
            {| StoreCredentialOptions.did := "did:iden3:ada";
               StoreCredentialOptions.credential_type := "KYC";
               StoreCredentialOptions.credential := JNull;
               StoreCredentialOptions.encrypted := true |})] /\
  calls_beyond_install
    (trace_of sample_sdk
       (app (PostRetrieveUserCredential
               {| RetrieveUserCredentialRequest.did := "did:iden3:ada";
                  RetrieveUserCredentialRequest.credential_type := "KYC";
                  RetrieveUserCredentialRequest.include_cid_only := false |}
               None))
       fresh_client)
  = [any (ipfs_retrieve_user_credential
            {| RetrieveUserCredentialOptions.did := "did:iden3:ada";
               RetrieveUserCredentialOptions.credential_type := "KYC";
               RetrieveUserCredentialOptions.include_cid_only := false |})] /\
  calls_beyond_install
    (trace_of sample_sdk
       (app (PostGetAllUserCredentials
               {| GetAllUserCredentialsRequest.did := "did:iden3:ada";
                  GetAllUserCredentialsRequest.include_credential_data := false |}
               None))
       fresh_client)
  = [any (ipfs_get_all_user_credentials
            {| GetAllUserCredentialsOptions.did := "did:iden3:ada";
               GetAllUserCredentialsOptions.include_credential_data := false |})].
Proof.
  destruct (optional_flags_default sample_sdk strict_str strict_bool)
    as (Hstore & Hretrieve & Hall).
  split; [|split].
  - apply (Hstore store_body); reflexivity.
  - apply (Hretrieve retrieve_body); reflexivity.
  - apply (Hall all_credentials_body); reflexivity.
Defined.

(** ** The remaining parts on the sample data *)

Lemma token_refresh_echoes_tokens_witness :
  http (scripted_sdk (Err value_error) (Ok sample_tokens) (Ok tt) ∅)
    (PostTokenRefresh sample_refresh) fresh_client
  = Ok {| http_status := 200;
          http_body := [("access_token", JStr "access-1");
                        ("refresh_token", JStr "refresh-1")] |} /\
  stored (trace_of (scripted_sdk (Err value_error) (Ok sample_tokens) (Ok tt) ∅)
            (app (PostTokenRefresh sample_refresh)) fresh_client)
  = [sample_tokens] /\
  client_after (scripted_sdk (Err value_error) (Ok sample_tokens) (Ok tt) ∅)
    (app (PostTokenRefresh sample_refresh)) fresh_client
  = fresh_client.
Proof.
  apply (token_refresh_echoes_tokens
           (scripted_sdk (Err value_error) (Ok sample_tokens) (Ok tt) ∅)
           sample_refresh fresh_client fresh_client fresh_client sample_tokens);
    reflexivity.
Defined.

Lemma failed_operation_stores_no_tokens_witness :
  stored (trace_of (scripted_sdk (Err bad_api_key) (Err token_expired) (Ok tt) ∅)
            (app (PostSignInConfirm sample_confirm)) fresh_client)
  = [] /\
  stored (trace_of (scripted_sdk (Err bad_api_key) (Err token_expired) (Ok tt) ∅)
            (app (PostTokenRefresh sample_refresh)) fresh_client)
  = [].
Proof.
  destruct (failed_operation_stores_no_tokens
              (scripted_sdk (Err bad_api_key) (Err token_expired) (Ok tt) ∅))
    as [Hconfirm Hrefresh].
  split.
  - apply (Hconfirm sample_confirm fresh_client fresh_client bad_api_key).
    reflexivity.
  - apply (Hrefresh sample_refresh fresh_client fresh_client token_expired).
    reflexivity.
Defined.


Lemma only_token_routes_store_tokens_witness :
  stored (trace_of sample_sdk (app (PostIssueCredential (issue_request "qr") None))
            fresh_client)
  = [].
Proof.
  apply (only_token_routes_store_tokens sample_sdk
           (PostIssueCredential (issue_request "qr") None) fresh_client).
  reflexivity.
Defined.

Lemma bearer_header_is_install_then_handle_witness :
  run sample_sdk (app (PostIssueCredential (issue_request "qr") (Some "Bearer t0")))
    fresh_client
  = let '(out, c', tr) :=
      run sample_sdk (app (PostIssueCredential (issue_request "qr") None))
        {| auth_token := Some "t0"; backend := tt |} in
    (out, c', Called (set_auth_token "t0") (Ok tt) :: tr).
Proof.
  apply (bearer_header_is_install_then_handle sample_sdk
           (PostIssueCredential (issue_request "qr") (Some "Bearer t0")) "t0"
           fresh_client).
  reflexivity.
Defined.

Lemma malformed_header_is_absent_header_witness :
  run sample_sdk (app (PostIssueCredential (issue_request "qr") (Some "bearer t0")))
    fresh_client
  = run sample_sdk (app (PostIssueCredential (issue_request "qr") None))
      fresh_client.
Proof.
  apply (malformed_header_is_absent_header sample_sdk
           (PostIssueCredential (issue_request "qr") (Some "bearer t0"))
           fresh_client).
  reflexivity.
Defined.

Lemma installs_iff_bearer_witness :
  installed (trace_of sample_sdk (set_auth_from_request (Some "Bearer ")) fresh_client)
  = [""] /\
  Some "Bearer abc" = Some ("Bearer " ++ "abc").
Proof.
  split.
  - apply (proj2 (installs_iff_bearer sample_sdk (Some "Bearer ") "" fresh_client)).
    reflexivity.
  - apply (proj1 (installs_iff_bearer sample_sdk (Some "Bearer abc") "abc"
                    fresh_client)).
    reflexivity.
Defined.

Lemma token_stays_installed_witness :
  auth_token
    (client_after sample_sdk
       (app (PostGetEncryptedKey sample_key_request None))
       {| auth_token := Some "t0"; backend := tt |})
  = Some "t0" /\
  auth_token
    (client_after sample_sdk
       (app (PostGetEncryptedKey sample_key_request (Some "Bearer t1")))
       {| auth_token := Some "t0"; backend := tt |})
  = Some "t1".
Proof.
  assert (forall (X : Type) (op : SdkOp X) (c0 : Client unit),
            call_kind (any op) = Operation ->
            auth_token (sample_sdk X op c0).2 = auth_token c0) as Hkeep.
  { intros X op c0. destruct op; cbn; try discriminate; try reflexivity.
    intros _. now destruct (String.eqb _ _). }
  split.
  - apply (token_stays_installed sample_sdk
             (PostGetEncryptedKey sample_key_request None)
             {| auth_token := Some "t0"; backend := tt |} Hkeep).
    reflexivity.
  - apply (token_stays_installed sample_sdk
             (PostGetEncryptedKey sample_key_request (Some "Bearer t1"))
             {| auth_token := Some "t0"; backend := tt |} Hkeep).
    reflexivity.
Defined.

Lemma no_call_after_failure_witness :
  exists (before : list Event) (X : Type) (op : SdkOp X),
    trace_of sample_sdk
      (app (PostGetEncryptedKey sample_key_request (Some "Bearer t0")))
      fresh_client
    = (before ++ Called op (Err connection_refused)
         :: debug_lines connection_refused)%list /\
    raised before = [].
Proof.
  apply (proj2 (no_call_after_failure sample_sdk
                  (PostGetEncryptedKey sample_key_request (Some "Bearer t0"))
                  fresh_client) connection_refused).
  left. reflexivity.
Defined.

Lemma error_body_keys_by_class_witness :
  exists st body,
    result_of sample_sdk (handle_sdk_error connection_refused) fresh_client
    = Ok (JSONResponse st body) /\
    In "code" (keys body) /\
    ~ In "isAPIKeyError" (keys body).
Proof.
  destruct (error_body_keys_by_class sample_sdk connection_refused fresh_client)
    as (st & body & Hres & _ & Hflag & Hcode).
  exists st, body. split; [exact Hres|]. split.
  - apply Hcode. reflexivity.
  - intros Hin. apply Hflag in Hin. discriminate Hin.
Defined.

Lemma issue_credential_incomplete_result_witness :
  http (scripted_sdk (Err value_error) (Err value_error) (Ok tt)
          (<["qr_code_link" := JStr "iden3comm://offer"]> ∅))
    (PostIssueCredential (issue_request "qr") None) fresh_client
  = Ok {| http_status := 500;
          http_body := [("error", JStr "'schema_type'");
                        ("type", JStr "UnknownError")] |} /\
  http (scripted_sdk (Err value_error) (Err value_error) (Ok tt) ∅)
    (PostIssueCredential (issue_request "tx") None) fresh_client
  = Ok {| http_status := 500;
          http_body := [("error", JStr "'tx_id'");
                        ("type", JStr "UnknownError")] |} /\
  http (scripted_sdk (Err value_error) (Err value_error) (Ok tt)
          (<["tx_id" := JStr "0xabc"]> ∅))
    (PostIssueCredential (issue_request "tx") None) fresh_client
  = Ok {| http_status := 500;
          http_body := [("error", JStr "'claim_id'");
                        ("type", JStr "UnknownError")] |}.
Proof.
  split; [|split].
  - apply (issue_credential_incomplete_result
             (scripted_sdk (Err value_error) (Err value_error) (Ok tt)
                (<["qr_code_link" := JStr "iden3comm://offer"]> ∅))
             (issue_request "qr") None fresh_client fresh_client _ eq_refl);
      [discriminate | reflexivity].
  - apply (issue_credential_incomplete_result
             (scripted_sdk (Err value_error) (Err value_error) (Ok tt) ∅)
             (issue_request "tx") None fresh_client fresh_client _ eq_refl);
      reflexivity.
  - apply (issue_credential_incomplete_result
             (scripted_sdk (Err value_error) (Err value_error) (Ok tt)
                (<["tx_id" := JStr "0xabc"]> ∅))
             (issue_request "tx") None fresh_client fresh_client _ eq_refl);
      [reflexivity | discriminate | reflexivity].
Defined.

Lemma explicit_flags_forwarded_witness :
  exists b,
    strict_bool (JBool false) = Some b /\
    calls_beyond_install
      (trace_of sample_sdk
         (app (PostStoreCredential
                 {| StoreCredentialRequest.did := "did:iden3:ada";
                    StoreCredentialRequest.credential_type := "KYC";
                    StoreCredentialRequest.credential := JNull;
                    StoreCredentialRequest.encrypted := false |}
                 None))
         fresh_client)
    = [any (ipfs_store_credential
              {| StoreCredentialOptions.did := "did:iden3:ada";
                 StoreCredentialOptions.credential_type := "KYC";
                 StoreCredentialOptions.credential := JNull;
                 StoreCredentialOptions.encrypted := b |})].
Proof.
  apply (proj1 (explicit_flags_forwarded sample_sdk strict_str strict_bool)
           flags_body);
    reflexivity.
Defined.

Lemma missing_required_field_fails_validation_witness :
  StoreCredentialRequest_validate strict_str strict_bool ∅ = None /\
  ConfirmOTPRequest_validate strict_str ∅ = None /\
  RefreshTokenRequest_validate strict_str
    (<["refresh_token" := JStr "refresh-0"]> ∅)
  = None.
Proof.
  split; [|split].
  - apply (proj1 (missing_required_field_fails_validation
                    strict_str strict_bool ∅)).
    reflexivity.
  - apply (proj1 (proj2 (proj2 (proj2
             (missing_required_field_fails_validation
                strict_str strict_bool ∅))))).
    reflexivity.
  - apply (proj2 (proj2 (proj2 (proj2
             (missing_required_field_fails_validation strict_str strict_bool
                (<["refresh_token" := JStr "refresh-0"]> ∅)))))).
    reflexivity.
Defined.

Lemma register_otp_accepts_empty_body_witness :
  exists request,
    RegisterOTPRequest_validate strict_str (<["email" := JNull]> ∅) = Some request /\
    sdk_calls (trace_of sample_sdk (app (PostSignInInitiate request)) fresh_client)
    = [any (auth_register_otp
              {| InitiateOTPOptions.email := None;
                 InitiateOTPOptions.phone := None |})] /\
    sdk_calls (trace_of sample_sdk (app (PostAdminLogin request)) fresh_client)
    = [any (auth_admin_login
              {| InitiateOTPOptions.email := None;
                 InitiateOTPOptions.phone := None |})].
Proof.
  apply (register_otp_accepts_empty_body sample_sdk strict_str
           (<["email" := JNull]> ∅) fresh_client).
  - right. reflexivity.
  - left. reflexivity.
Defined.

Lemma initialize_sdk_requires_api_key_witness :
  (exists sdk_args,
     initialize_sdk sample_environ = Ok sdk_args /\
     DCIDServerSDK.api_key sdk_args = "key-1") /\
  initialize_sdk (<["DCID_API_KEY" := ""]> ∅)
  = Err (RuntimeError "DCID_API_KEY environment variable is required").
Proof.
  split.
  - apply (proj1 (initialize_sdk_requires_api_key sample_environ) "key-1");
      [reflexivity | discriminate].
  - apply (proj2 (initialize_sdk_requires_api_key (<["DCID_API_KEY" := ""]> ∅))).
    right. reflexivity.
Defined.

Lemma initialize_sdk_environment_witness :
  DCIDServerSDK.environment
    {| DCIDServerSDK.api_key := "key-1";
       DCIDServerSDK.environment := "";
       DCIDServerSDK.timeout := 120000;
       DCIDServerSDK.enable_request_logging := true |}
  = "" /\
  DCIDServerSDK.timeout
    {| DCIDServerSDK.api_key := "key-1";
       DCIDServerSDK.environment := "";
       DCIDServerSDK.timeout := 120000;
       DCIDServerSDK.enable_request_logging := true |}
  = 120000 /\
  DCIDServerSDK.enable_request_logging
    {| DCIDServerSDK.api_key := "key-1";
       DCIDServerSDK.environment := "";
       DCIDServerSDK.timeout := 120000;
       DCIDServerSDK.enable_request_logging := true |}
  = true.
Proof.
  apply (initialize_sdk_environment sample_environ).
  reflexivity.
Defined.

Lemma handle_sdk_error_answers_iff_context_prints_witness :
  (exists res,
     result_of sample_sdk (handle_sdk_error_any (any_exception bad_api_key))
       fresh_client
     = Ok res) /\
  exc_type_name (AttributeError "list" "url") = "AttributeError" /\
  client_after sample_sdk (handle_sdk_error_any foreign_error) fresh_client
  = fresh_client.
Proof.
  split.
  - apply (proj1 (handle_sdk_error_answers_iff_context_prints sample_sdk
                    (any_exception bad_api_key) fresh_client)).
    cbn. repeat split; eexists; reflexivity.
  - destruct (proj2 (handle_sdk_error_answers_iff_context_prints sample_sdk
                       foreign_error fresh_client)
                (AttributeError "list" "url") eq_refl)
      as (Hname & Hclient & _).
    split; [exact Hname | exact Hclient].
Defined.
